(** * Framer + Firebase backend: the request handlers of [src/api/index.js]

    A shallow embedding of the Express handlers and of the part of the
    Firebase Admin SDK they call (Firestore documents, identity service),
    followed by the properties of the handlers.

    Conventions of the embedding:
    - a JSON / JavaScript value is a [Value]; numbers are integers ([Z]),
      floating point numbers are outside the model; strings are byte
      strings (UTF-8);
    - a request body and a stored user document are finite maps from
      field names to values ([gmap string Value]); the values of a body come
      from [JSON.parse], so [VUndef] is the reading of an absent field and
      never the value of one;
    - a handler is a computation in the monad [Eff]: it threads the state
      of the outside world (both collections, the identity service, the
      clock, the trace of SDK calls) and may throw, as the JavaScript code
      does; the [console] output of the handlers is left out. *)

From Stdlib Require Import ZArith String Ascii List Sorting.Sorted Sorting.Permutation.
From Stdlib Require OrderedTypeEx.
From stdpp Require Import base option list sorting gmap strings pretty.

Set Warnings "-register-all".
Local Open Scope string_scope.
Local Open Scope list_scope.
Local Open Scope Z_scope.

(** ** JavaScript values *)

Inductive Value : Type :=
| VUndef
| VNull
| VBool (b : bool)
| VNum (n : Z)
| VStr (s : string)
| VArr (items : list Value)
| VObj (fields : list (string * Value)).

(** Induction principle that reaches the values nested inside arrays and
    objects. *)
Section value_ind.
Variable P : Value → Prop.
Hypothesis Hundef : P VUndef.
Hypothesis Hnull : P VNull.
Hypothesis Hbool : ∀ b, P (VBool b).
Hypothesis Hnum : ∀ n, P (VNum n).
Hypothesis Hstr : ∀ s, P (VStr s).
Hypothesis Harr : ∀ l, Forall P l → P (VArr l).
Hypothesis Hobj : ∀ fs, Forall (λ kv, P kv.2) fs → P (VObj fs).

Fixpoint Value_nested_ind (v : Value) : P v :=
  match v with
  | VUndef => Hundef
  | VNull => Hnull
  | VBool b => Hbool b
  | VNum n => Hnum n
  | VStr s => Hstr s
  | VArr l =>
      Harr l ((fix go (l : list Value) : Forall P l :=
                 match l with
                 | [] => Forall_nil_2 P
                 | x :: l' => Forall_cons_2 P x l' (Value_nested_ind x) (go l')
                 end) l)
  | VObj fs =>
      Hobj fs ((fix go (fs : list (string * Value)) : Forall (λ kv, P kv.2) fs :=
                  match fs with
                  | [] => Forall_nil_2 _
                  | kv :: fs' =>
                      Forall_cons_2 (λ kv, P kv.2) kv fs'
                        (Value_nested_ind kv.2) (go fs')
                  end) fs)
  end.
End value_ind.

(** Structural equality of values, as a boolean function. *)
Fixpoint value_eqb (a b : Value) {struct a} : bool :=
  match a, b with
  | VUndef, VUndef => true
  | VNull, VNull => true
  | VBool x, VBool y => Bool.eqb x y
  | VNum x, VNum y => Z.eqb x y
  | VStr x, VStr y => String.eqb x y
  | VArr l1, VArr l2 =>
      (fix go (l1 l2 : list Value) {struct l1} : bool :=
         match l1, l2 with
         | [], [] => true
         | x :: l1', y :: l2' => value_eqb x y && go l1' l2'
         | _, _ => false
         end) l1 l2
  | VObj f1, VObj f2 =>
      (fix go (f1 f2 : list (string * Value)) {struct f1} : bool :=
         match f1, f2 with
         | [], [] => true
         | (k1, x) :: f1', (k2, y) :: f2' =>
             String.eqb k1 k2 && value_eqb x y && go f1' f2'
         | _, _ => false
         end) f1 f2
  | _, _ => false
  end.

(** JavaScript truthiness: [undefined], [null], [false], [0] and the empty
    string are falsy, everything else (arrays and objects included) is
    truthy. *)
Definition truthy (v : Value) : bool :=
  match v with
  | VUndef | VNull => false
  | VBool b => b
  | VNum n => negb (Z.eqb n 0)
  | VStr s => negb (String.eqb s "")
  | VArr _ | VObj _ => true
  end.

(** [a || b] *)
Definition js_or (a b : Value) : Value := if truthy a then a else b.

(** Reading a property of an object: [undefined] when it is missing. *)
Definition prop (o : gmap string Value) (k : string) : Value :=
  default VUndef (o !! k).

(** ['prefix' + n] and [`prefix${n}`] for an integer [n]. *)
Definition str_num (pre : string) (n : Z) : string := pre +:+ pretty n.

(** [s.split('@')[0]]: the part of [s] before its first ['@']. *)
Fixpoint before_at (s : string) : string :=
  match s with
  | EmptyString => EmptyString
  | String c s' => if Ascii.eqb c "@"%char then EmptyString else String c (before_at s')
  end.

(** ** [Date.prototype.toISOString] *)

(** Civil date of a day count since 1970-01-01 (proleptic Gregorian
    calendar). *)
Definition civil_from_days (days : Z) : Z * Z * Z :=
  let z := days + 719468 in
  let era := z / 146097 in
  let doe := z - era * 146097 in
  let yoe := (doe - doe / 1460 + doe / 36524 - doe / 146096) / 365 in
  let doy := doe - (365 * yoe + yoe / 4 - yoe / 100) in
  let mp := (5 * doy + 2) / 153 in
  let d := doy - (153 * mp + 2) / 5 + 1 in
  let m := if mp <? 10 then mp + 3 else mp - 9 in
  let y := yoe + era * 400 + (if m <=? 2 then 1 else 0) in
  (y, m, d).

Fixpoint zeros (n : nat) : string :=
  match n with O => "" | S n' => "0" +:+ zeros n' end.

(** A non-negative number padded with zeros on the left to [w] digits. *)
Definition pad (w : nat) (n : Z) : string :=
  let s := pretty (Z.to_N n) in
  zeros (w - String.length s) +:+ s.

Definition iso_year (y : Z) : string :=
  if (0 <=? y) && (y <=? 9999) then pad 4 y
  else if y <? 0 then "-" +:+ pad 6 (- y)
  else "+" +:+ pad 6 y.

(** [new Date(ms).toISOString()] for [ms] milliseconds since the epoch. *)
Definition toISOString (ms : Z) : string :=
  let days := ms / 86400000 in
  let rest := ms mod 86400000 in
  let '(y, m, d) := civil_from_days days in
  iso_year y +:+ "-" +:+ pad 2 m +:+ "-" +:+ pad 2 d +:+ "T" +:+
  pad 2 (rest / 3600000) +:+ ":" +:+ pad 2 (rest / 60000 mod 60) +:+ ":" +:+
  pad 2 (rest / 1000 mod 60) +:+ "." +:+ pad 3 (rest mod 1000) +:+ "Z".

(** ** Firestore documents *)

(** A document of the [users] collection: field name to value. *)
Abbreviation Doc := (gmap string Value).

(** A document of the [projects] collection. The only writer of that
    collection is the create-project handler, which always stores an object
    of this shape (lines 299-310). *)
Record Project : Type := mkProject {
  p_id : string;
  p_userId : Value;
  p_name : Value;
  p_type : Value;
  p_description : Value;
  p_createdAt : string;
  p_updatedAt : string;
  p_status : string;
  p_collaborators : list Value;
  p_tasks : list Value
}.

(** The JSON object of a project document, fields in the order of the
    object literal. *)
Definition project_json (p : Project) : Value :=
  VObj [("id", VStr (p_id p)); ("userId", p_userId p); ("name", p_name p);
        ("type", p_type p); ("description", p_description p);
        ("createdAt", VStr (p_createdAt p)); ("updatedAt", VStr (p_updatedAt p));
        ("status", VStr (p_status p)); ("collaborators", VArr (p_collaborators p));
        ("tasks", VArr (p_tasks p))].

(** What [update()] does to one field: plain replacement, or one of the
    [FieldValue] transforms used by the handlers. *)
Inductive FieldOp : Type :=
| SetTo (v : Value)
| Increment (n : Z)
| ArrayUnion (elems : list Value).

(** [FieldValue.arrayUnion]: each element that is not yet in the array is
    added at its end. *)
Definition array_union (l elems : list Value) : list Value :=
  foldl (λ acc e, if existsb (value_eqb e) acc then acc else acc ++ [e]) l elems.

(** The new value of a field whose old value is [old] ([VUndef] when the
    field is missing). A transform of a field of another type starts from
    scratch. *)
Definition apply_op (op : FieldOp) (old : Value) : Value :=
  match op with
  | SetTo v => v
  | Increment n => match old with VNum m => VNum (m + n) | _ => VNum n end
  | ArrayUnion elems =>
      match old with
      | VArr l => VArr (array_union l elems)
      | _ => VArr (array_union [] elems)
      end
  end.

(** The keys of an update are field paths: ["settings.theme"] names the
    field [theme] inside the map [settings]. [field_path] splits a key at
    its dots into the top-level field and the remaining segments. *)
Fixpoint field_path (key : string) : string * list string :=
  match key with
  | EmptyString => (EmptyString, [])
  | String c key' =>
      let '(seg, rest) := field_path key' in
      if Ascii.eqb c "."%char then (EmptyString, seg :: rest)
      else (String c seg, rest)
  end.

Fixpoint alist_get (k : string) (fs : list (string * Value)) : Value :=
  match fs with
  | [] => VUndef
  | (k', v) :: fs' => if String.eqb k k' then v else alist_get k fs'
  end.

Fixpoint alist_set (k : string) (v : Value) (fs : list (string * Value))
  : list (string * Value) :=
  match fs with
  | [] => [(k, v)]
  | (k', v') :: fs' =>
      if String.eqb k k' then (k', v) :: fs' else (k', v') :: alist_set k v fs'
  end.

(** Applying [op] at the end of [path] below the value [old]; a value on
    the way that is not a map is replaced by a map. *)
Fixpoint update_in (path : list string) (op : FieldOp) (old : Value) : Value :=
  match path with
  | [] => apply_op op old
  | k :: rest =>
      let fs := match old with VObj fs => fs | _ => [] end in
      VObj (alist_set k (update_in rest op (alist_get k fs)) fs)
  end.

Definition doc_update_field (key : string) (op : FieldOp) (d : Doc) : Doc :=
  let '(top, rest) := field_path key in
  <[top := update_in rest op (prop d top)]> d.

(** [update(upd)] on the document [d]: fields that no key of [upd] names
    are kept. *)
Definition doc_update (upd : gmap string FieldOp) (d : Doc) : Doc :=
  map_fold doc_update_field d upd.

(** ** The outside world *)

(** A credential record of the identity service. *)
Record Account : Type := mkAccount {
  a_uid : string;
  a_email : Value;
  a_password : Value;
  a_displayName : Value
}.

(** The calls to the Admin SDK that reach one of the two services. *)
Inductive Call : Type :=
| AuthCreateUser (email password displayName : Value)
| AuthCreateCustomToken (uid : string)
| UsersGet (id : string)
| UsersSet (id : string) (data : Doc)
| UsersUpdate (id : string) (upd : gmap string FieldOp)
| ProjectsSet (id : string) (data : Project)
| ProjectsQuery (userId : string).

(** The calls that create or change something in a service. *)
Definition is_write (c : Call) : bool :=
  match c with
  | AuthCreateUser _ _ _ | UsersSet _ _ | UsersUpdate _ _ | ProjectsSet _ _ => true
  | AuthCreateCustomToken _ | UsersGet _ | ProjectsQuery _ => false
  end.

(** What the handlers cannot control:
    - [firebaseInitialized]: the flag set once at start-up (lines 33-49),
      only read afterwards; [load] below tells which values it has in a
      program that got past line 51;
    - [clock n]: the reading of the [n]-th use of [Date.now()] or
      [new Date()], in milliseconds;
    - [fault n]: [Some msg] when the [n]-th SDK call fails with an error
      whose message is [msg]: an unreachable service, a missing index, an
      argument that the call refuses (an email that is not one, a password
      that is too short, a malformed field path), ...;
    - [new_uid n]: the id that the identity service gives to its [n]-th
      account;
    - [sign uid]: the custom token minted for [uid];
    - [recorded_email email]: the email as the identity service records it
      and gives it back in the user record (it normalises the address). *)
Record Env : Type := mkEnv {
  firebaseInitialized : bool;
  clock : nat → Z;
  fault : nat → option string;
  new_uid : nat → string;
  sign : string → string;
  recorded_email : Value → Value
}.

(** The state of the two services and of the handlers' surroundings:
    - [users]: the documents of the collection [users] and of the
      collections below it, by their path relative to [users] (a key
      without a slash is a document of the collection itself);
    - [projects]: the documents of the collection [projects], by id (the
      handlers address them by ids made from the clock only);
    - [accounts]: the accounts of the identity service, oldest first;
    - [ticks]: how many times the clock was read;
    - [calls]: the SDK calls made so far, oldest first. *)
Record World : Type := mkWorld {
  users : gmap string Doc;
  projects : gmap string Project;
  accounts : list Account;
  ticks : nat;
  calls : list Call
}.

Definition set_users (f : gmap string Doc → gmap string Doc) (w : World) : World :=
  mkWorld (f (users w)) (projects w) (accounts w) (ticks w) (calls w).
Definition set_projects (f : gmap string Project → gmap string Project) (w : World)
  : World :=
  mkWorld (users w) (f (projects w)) (accounts w) (ticks w) (calls w).
Definition set_accounts (f : list Account → list Account) (w : World) : World :=
  mkWorld (users w) (projects w) (f (accounts w)) (ticks w) (calls w).
Definition tick (w : World) : World :=
  mkWorld (users w) (projects w) (accounts w) (S (ticks w)) (calls w).
Definition log (c : Call) (w : World) : World :=
  mkWorld (users w) (projects w) (accounts w) (ticks w) (calls w ++ [c]).

(** ** The monad of the handlers: state of the world and exceptions *)

Inductive Result (A : Type) : Type :=
| Ok (a : A)
| Throw (msg : string).
Arguments Ok {A} a.
Arguments Throw {A} msg.

Definition Eff (A : Type) : Type := World → Result A * World.

Definition ret {A} (a : A) : Eff A := λ w, (Ok a, w).

Definition bind {A B} (m : Eff A) (k : A → Eff B) : Eff B :=
  λ w, match m w with
       | (Ok a, w') => k a w'
       | (Throw msg, w') => (Throw msg, w')
       end.

Definition throw {A} (msg : string) : Eff A := λ w, (Throw msg, w).

(** [try { m } catch (error) { h error.message }]: what [m] did to the
    world before it threw is not undone. *)
Definition try_catch {A} (m : Eff A) (h : string → Eff A) : Eff A :=
  λ w, match m w with
       | (Ok a, w') => (Ok a, w')
       | (Throw msg, w') => h msg w'
       end.

#[global] Instance Eff_ret : MRet Eff := @ret.
#[global] Instance Eff_bind : MBind Eff := λ A B k m, bind m k.

(** ** HTTP responses *)

(** [res.status(code).json(body)]; [res.json(body)] alone has status 200. *)
Record Response : Type := mkResponse {
  status : Z;
  payload : Value
}.

Definition failure (code : Z) (error : string) : Response :=
  mkResponse code (VObj [("success", VBool false); ("error", VStr error)]).

Definition success (fields : list (string * Value)) : Response :=
  mkResponse 200 (VObj (("success", VBool true) :: fields)).

(** [userDoc.data()]: the stored fields as an object. *)
Definition doc_json (d : Doc) : Value := VObj (map_to_list d).

(** ** Queries on the [projects] collection *)

(** [orderBy('createdAt', 'desc')]: later creation time first; documents
    with the same creation time by document name, descending as well. *)
Definition desc_before (a b : string * Project) : bool :=
  match String.compare (p_createdAt a.2) (p_createdAt b.2) with
  | Gt => true
  | Lt => false
  | Eq => String.leb b.1 a.1
  end.

(** The snapshot of the query
    [where('userId', '==', userId).orderBy('createdAt', 'desc')]: the
    matching documents with their names, in the order of the query. *)
Definition projects_snapshot (userId : string) (ps : gmap string Project)
  : list (string * Project) :=
  merge_sort (λ a b, Is_true (desc_before a b))
    (List.filter (λ kp, value_eqb (p_userId kp.2) (VStr userId)) (map_to_list ps)).

(** The [forEach] loop that collects [doc.data()] (lines 351-354). *)
Definition projects_of (userId : string) (ps : gmap string Project) : list Project :=
  (projects_snapshot userId ps).*2.

(** ** Document paths *)

(** [s.split('/')]: the first piece and the pieces after it. *)
Fixpoint split_slash (s : string) : string * list string :=
  match s with
  | EmptyString => (EmptyString, [])
  | String c s' =>
      let '(seg, rest) := split_slash s' in
      if Ascii.eqb c "/"%char then (EmptyString, seg :: rest)
      else (String c seg, rest)
  end.

Definition nonempty (s : string) : bool := negb (String.eqb s "").

(** The segments of a path: its pieces that are not empty (a slash at
    either end is allowed). *)
Definition segments (s : string) : list string :=
  let '(seg, rest) := split_slash s in List.filter nonempty (seg :: rest).

(** The path has two slashes in a row. *)
Fixpoint has_double_slash (s : string) : bool :=
  match s with
  | EmptyString => false
  | String c s' =>
      match s' with
      | EmptyString => false
      | String c' _ =>
          (Ascii.eqb c "/"%char && Ascii.eqb c' "/"%char) || has_double_slash s'
      end
  end.

(** The document that [db.collection(..).doc(id)] refers to: [None] when
    the client refuses [id], otherwise the path of the document relative to
    the collection, with single slashes. The client refuses the empty
    string, a path with [//] and a path with an even number of segments
    (such as [a/b], which would be a collection); [a], [a/] and [/a] are
    the same document. *)
Definition doc_key (id : string) : option string :=
  if has_double_slash id then None
  else
    let segs := segments id in
    if Nat.odd (List.length segs) then Some (String.concat "/" segs) else None.

(** A non-empty id without a slash. *)
Fixpoint has_slash (s : string) : bool :=
  match s with
  | EmptyString => false
  | String c s' => Ascii.eqb c "/"%char || has_slash s'
  end.

Definition plain_id (s : string) : bool := nonempty s && negb (has_slash s).

(** A value other than [undefined]. *)
Definition is_defined (v : Value) : bool :=
  match v with VUndef => false | _ => true end.

(** No field of the project is [undefined]. *)
Definition project_defined (p : Project) : bool :=
  is_defined (p_userId p) && is_defined (p_name p) && is_defined (p_type p)
  && is_defined (p_description p).

(** ** The SDK calls and the handlers *)

Section Handlers.
Variable E : Env.

(** [Date.now()] and [new Date()]: one reading of the clock. *)
Definition date_now : Eff Z := λ w, (Ok (clock E (ticks w)), tick w).

(** A call that reaches a service: it is recorded, then it fails when the
    environment says so, and otherwise does [op]. What the SDK checks on
    the arguments of such a call and this model does not decide itself
    (the form of an email, the length of a password, the syntax of a field
    path) is one of the ways in which the call fails. *)
Definition sdk_call {A} (c : Call) (op : World → Result A * World) : Eff A :=
  λ w, match fault E (List.length (calls w)) with
       | Some msg => (Throw msg, log c w)
       | None => op (log c w)
       end.

(** [db.collection(..).doc(id)]: the id must be a string that is the path
    of a document, otherwise the client throws before any call is made. *)
Definition doc_ref (id : Value) : Eff string :=
  match id with
  | VStr s =>
      match doc_key s with
      | Some key => mret key
      | None => throw "Value for argument documentPath is not a valid resource path."
      end
  | _ => throw "Value for argument documentPath is not a valid resource path."
  end.

(** [db.collection('users').doc(id).get()]: [None] when [exists] is
    false, otherwise the result of [data()]. *)
Definition users_get (id : Value) : Eff (option Doc) :=
  s ← doc_ref id;
  sdk_call (UsersGet s) (λ w, (Ok (users w !! s), w)).

(** [db.collection('users').doc(id).set(data)]. The one document written
    this way is the one of register, whose fields are constants or passed
    the test of presence: none is [undefined]. *)
Definition users_set (id : Value) (data : Doc) : Eff unit :=
  s ← doc_ref id;
  sdk_call (UsersSet s data) (λ w, (Ok (), set_users (insert s data) w)).

(** [db.collection('users').doc(id).update(upd)]: fails on a document
    that does not exist. *)
Definition users_update (id : Value) (upd : gmap string FieldOp) : Eff unit :=
  s ← doc_ref id;
  sdk_call (UsersUpdate s upd) (λ w,
    match users w !! s with
    | None => (Throw "NOT_FOUND: No document to update", w)
    | Some d => (Ok (), set_users (insert s (doc_update upd d)) w)
    end).

(** [db.collection('projects').doc(id).set(data)]: the client refuses a
    document with an [undefined] field and throws before any call is
    made. *)
Definition projects_set (id : Value) (data : Project) : Eff unit :=
  s ← doc_ref id;
  if project_defined data then
    sdk_call (ProjectsSet s data) (λ w, (Ok (), set_projects (insert s data) w))
  else throw "Cannot use undefined as a Firestore value.".

(** The query of lines 346-349. *)
Definition projects_query (userId : string) : Eff (list Project) :=
  sdk_call (ProjectsQuery userId) (λ w, (Ok (projects_of userId (projects w)), w)).

(** [admin.auth().createUser(..)]: the service records the email in its
    own form and refuses an email that an account already has; the user
    record that it returns holds the recorded email. A refusal of the
    arguments (an email that is not one, a password of fewer than six
    characters, a display name that is not a string) is a failure of the
    call, told by [fault]. *)
Definition auth_createUser (email password displayName : Value) : Eff Account :=
  sdk_call (AuthCreateUser email password displayName) (λ w,
    if existsb (λ a, value_eqb (a_email a) (recorded_email E email)) (accounts w)
    then (Throw "The email address is already in use by another account.", w)
    else
      let a := mkAccount (new_uid E (List.length (accounts w)))
                         (recorded_email E email) password displayName in
      (Ok a, set_accounts (λ l, l ++ [a]) w)).

(** [admin.auth().createCustomToken(uid)] *)
Definition auth_createCustomToken (uid : string) : Eff string :=
  sdk_call (AuthCreateCustomToken uid) (λ w, (Ok (sign E uid), w)).

(** [email.split('@')[0]] on a value that passed the truthiness test: a
    [TypeError] unless it is a string. *)
Definition split_at0 (v : Value) : Eff Value :=
  match v with
  | VStr s => mret (VStr (before_at s))
  | _ => throw "email.split is not a function"
  end.

(** [POST /api/register] (lines 84-168). *)
Definition register (body : gmap string Value) : Eff Response :=
  try_catch
    (let email := prop body "email" in
     let password := prop body "password" in
     let name := prop body "name" in
     if negb (truthy email) || negb (truthy password) || negb (truthy name) then
       mret (failure 400 "Missing required fields: email, password, name")
     else if negb (firebaseInitialized E) then
       t1 ← date_now;
       t2 ← date_now;
       let mockUser :=
         VObj [("uid", VStr (str_num "user_" t1)); ("email", email);
               ("name", name); ("createdAt", VStr (toISOString t2))] in
       t3 ← date_now;
       mret (success [("user", mockUser);
                      ("token", VStr (str_num "mock_token_" t3));
                      ("message", VStr "Registration successful (Firebase disabled - mock mode)!")])
     else
       userRecord ← auth_createUser email password name;
       t1 ← date_now;
       t2 ← date_now;
       let userData : Doc :=
         list_to_map
           [("uid", VStr (a_uid userRecord)); ("email", email); ("name", name);
            ("createdAt", VStr (toISOString t1));
            ("lastLogin", VStr (toISOString t2));
            ("role", VStr "user");
            ("totalProjects", VNum 0);
            ("settings", VObj [("theme", VStr "light"); ("notifications", VBool true)]);
            ("projects", VArr [])] in
       users_set (VStr (a_uid userRecord)) userData;;
       customToken ← auth_createCustomToken (a_uid userRecord);
       mret (success [("user", VObj [("uid", VStr (a_uid userRecord));
                                     ("email", a_email userRecord);
                                     ("name", a_displayName userRecord);
                                     ("createdAt", prop userData "createdAt")]);
                      ("token", VStr customToken);
                      ("message", VStr "Registration successful!")]))
    (λ msg, mret (failure 400 (if String.eqb msg "" then "Registration failed" else msg))).

(** [POST /api/login] (lines 173-230). *)
Definition login (body : gmap string Value) : Eff Response :=
  try_catch
    (let email := prop body "email" in
     let password := prop body "password" in
     if negb (truthy email) || negb (truthy password) then
       mret (failure 400 "Missing email or password")
     else if negb (firebaseInitialized E) then
       t1 ← date_now;
       name ← split_at0 email;
       t2 ← date_now;
       let mockUser :=
         VObj [("uid", VStr (str_num "user_" t1)); ("email", email);
               ("name", name); ("createdAt", VStr (toISOString t2))] in
       t3 ← date_now;
       mret (success [("user", mockUser);
                      ("token", VStr (str_num "mock_token_" t3));
                      ("message", VStr "Login successful (Firebase disabled - mock mode)!")])
     else
       t1 ← date_now;
       name ← split_at0 email;
       t2 ← date_now;
       let uid := str_num "user_" t1 in
       let mockUser :=
         VObj [("uid", VStr uid); ("email", email);
               ("name", name); ("createdAt", VStr (toISOString t2))] in
       customToken ← auth_createCustomToken uid;
       mret (success [("user", mockUser);
                      ("token", VStr customToken);
                      ("message", VStr "Login successful!")]))
    (λ _, mret (failure 401 "Invalid credentials")).

(** [GET /api/user/:userId] (lines 235-276). *)
Definition get_user (userId : string) : Eff Response :=
  try_catch
    (userDoc ← users_get (VStr userId);
     match userDoc with
     | None => mret (failure 404 "User not found")
     | Some userData =>
         let safeUserData :=
           VObj [("uid", prop userData "uid");
                 ("email", prop userData "email");
                 ("name", prop userData "name");
                 ("createdAt", prop userData "createdAt");
                 ("lastLogin", prop userData "lastLogin");
                 ("role", prop userData "role");
                 ("totalProjects", prop userData "totalProjects");
                 ("settings", prop userData "settings")] in
         mret (success [("user", safeUserData)])
     end)
    (λ _, mret (failure 500 "Server error")).

(** [POST /api/projects] (lines 281-334). *)
Definition create_project (body : gmap string Value) : Eff Response :=
  try_catch
    (let userId := prop body "userId" in
     let name := prop body "name" in
     let type := prop body "type" in
     let description := prop body "description" in
     userDoc ← users_get userId;
     match userDoc with
     | None => mret (failure 404 "User not found")
     | Some _ =>
         t1 ← date_now;
         let projectId := str_num "project_" t1 in
         t2 ← date_now;
         t3 ← date_now;
         let projectData :=
           mkProject projectId userId name type (js_or description (VStr ""))
                     (toISOString t2) (toISOString t3) "active" [] [] in
         projects_set (VStr projectId) projectData;;
         users_update userId
           (list_to_map [("totalProjects", Increment 1);
                         ("projects", ArrayUnion [VStr projectId])]);;
         mret (success [("project", project_json projectData);
                        ("message", VStr "Project created successfully!")])
     end)
    (λ _, mret (failure 500 "Failed to create project")).

(** [GET /api/user/:userId/projects] (lines 339-369). *)
Definition list_projects (userId : string) : Eff Response :=
  try_catch
    (projects ← projects_query userId;
     mret (success [("projects", VArr (project_json <$> projects));
                    ("count", VNum (Z.of_nat (List.length projects)))]))
    (λ _, mret (failure 500 "Failed to fetch projects")).

(** The object that the update-user handler hands to [update()]: the
    request body after the three [delete]s and the assignment of lines
    466-470. *)
Definition sanitized (body : gmap string Value) (t : Z) : gmap string Value :=
  <["updatedAt" := VStr (toISOString t)]>
    (delete "createdAt" (delete "email" (delete "uid" body))).

(** [PUT /api/user/:userId] (lines 460-490). *)
Definition update_user (userId : string) (body : gmap string Value) : Eff Response :=
  try_catch
    (t ← date_now;
     let updates := sanitized body t in
     users_update (VStr userId) (SetTo <$> updates);;
     userDoc ← users_get (VStr userId);
     mret (success [("user", from_option doc_json VUndef userDoc);
                    ("message", VStr "Profile updated successfully")]))
    (λ _, mret (failure 500 "Failed to update profile")).

End Handlers.

(** ** Statements that the theorems below share *)

(** The next [k] SDK calls made from the world [w] succeed. *)
Definition quiet (E : Env) (w : World) (k : nat) : Prop :=
  ∀ i, (i < k)%nat → fault E (List.length (calls w) + i) = None.

(** Lower case, on the letters A to Z. *)
Definition lower_ascii (c : ascii) : ascii :=
  let n := nat_of_ascii c in
  if (65 <=? n)%nat && (n <=? 90)%nat then ascii_of_nat (n + 32) else c.

Fixpoint lower_string (s : string) : string :=
  match s with
  | EmptyString => EmptyString
  | String c s' => String (lower_ascii c) (lower_string s')
  end.

Definition lower_email (email : Value) : Value :=
  match email with VStr s => VStr (lower_string s) | _ => email end.

(** An environment in which no SDK call ever fails; the identity service
    records emails in lower case. *)
Definition calm_env (init : bool) (now : nat → Z) : Env :=
  mkEnv init now (λ _, None) (λ n, str_num "uid" (Z.of_nat n)) (λ uid, "token:" +:+ uid)
        lower_email.

(** [calm_env], apart from the calls that fail. *)
Definition faulty_env (init : bool) (now : nat → Z) (faults : nat → option string) : Env :=
  mkEnv init now faults (λ n, str_num "uid" (Z.of_nat n)) (λ uid, "token:" +:+ uid)
        lower_email.

Definition empty_world : World := mkWorld ∅ ∅ [] 0 [].

(** A world that differs from [w] only by clock readings has the same
    collections, accounts and trace of calls. *)
Definition same_services (w w' : World) : Prop :=
  users w' = users w ∧ projects w' = projects w ∧
  accounts w' = accounts w ∧ calls w' = calls w.

(** The response of the mock mode of register and login: a user id and a
    token made from clock readings. *)
Definition mock_response (t1 t2 t3 : Z) (email name : Value) (message : string)
  : Response :=
  success [("user", VObj [("uid", VStr (str_num "user_" t1)); ("email", email);
                          ("name", name); ("createdAt", VStr (toISOString t2))]);
           ("token", VStr (str_num "mock_token_" t3));
           ("message", VStr message)].

Definition login_response (E : Env) (w : World) (s : string) : Response :=
  let uid := str_num "user_" (clock E (ticks w)) in
  success [("user", VObj [("uid", VStr uid); ("email", VStr s);
                          ("name", VStr (before_at s));
                          ("createdAt", VStr (toISOString (clock E (S (ticks w)))))]);
           ("token", VStr (sign E uid));
           ("message", VStr "Login successful!")].

(** The fields that the get-user handler copies into its response. *)
Definition safe_fields : list string :=
  ["uid"; "email"; "name"; "createdAt"; "lastLogin"; "role"; "totalProjects";
   "settings"].

(** [userId] is the string [s], which is the path of the stored user
    record [d]; [key] is that path with single slashes ([s] itself when [s]
    has no slash). *)
Definition names_user (w : World) (userId : Value) (s key : string) (d : Doc) : Prop :=
  userId = VStr s ∧ doc_key s = Some key ∧ users w !! key = Some d.

(** The not-found property of create-project as the specification words
    it: whenever [userId] names no stored user record the answer is 404 and
    the project collection is unchanged. *)
Definition unknown_user_gets_404 (E : Env) (body : gmap string Value) (w : World)
  : Prop :=
  (¬ ∃ s key d, names_user w (prop body "userId") s key d) →
  ∃ r w', create_project E body w = (Ok r, w') ∧
          status r = 404 ∧ projects w' = projects w.

(** The project record that create-project builds from [body] in the
    world [w] (lines 298-310). *)
Definition new_project (E : Env) (body : gmap string Value) (w : World) : Project :=
  mkProject (str_num "project_" (clock E (ticks w)))
            (prop body "userId") (prop body "name") (prop body "type")
            (js_or (prop body "description") (VStr ""))
            (toISOString (clock E (S (ticks w))))
            (toISOString (clock E (S (S (ticks w)))))
            "active" [] [].

(** The update of the user record in create-project (lines 316-319). *)
Definition count_project (projectId : string) : gmap string FieldOp :=
  list_to_map [("totalProjects", Increment 1);
               ("projects", ArrayUnion [VStr projectId])].

Definition created_response (p : Project) : Response :=
  success [("project", project_json p);
           ("message", VStr "Project created successfully!")].

(** The world after a create-project request for the user record [d]
    stored at [key] in which every call succeeded. *)
Definition after_create (E : Env) (body : gmap string Value) (w : World)
    (key : string) (d : Doc) : World :=
  let p := new_project E body w in
  let upd := count_project (p_id p) in
  set_users (insert key (doc_update upd d))
    (log (UsersUpdate key upd)
       (set_projects (insert (p_id p) p)
          (log (ProjectsSet (p_id p) p)
             (tick (tick (tick (log (UsersGet key) w))))))).

(** The counter of a user record agrees with its list of project ids. *)
Definition consistent (d : Doc) : bool :=
  match d !! "totalProjects", d !! "projects" with
  | Some (VNum n), Some (VArr l) => Z.eqb n (Z.of_nat (List.length l))
  | _, _ => false
  end.

(** The status of the response of a handler, and the record of a user
    after it. *)
Definition status_of (run : Result Response * World) : option Z :=
  match run.1 with Ok r => Some (status r) | Throw _ => None end.

Definition user_after (run : Result Response * World) (uid : string) : option Doc :=
  users run.2 !! uid.

(** The project [p] belongs to the user [userId]. *)
Definition owned_by (userId : string) (p : Project) : Prop :=
  p_userId p = VStr userId.

(** [a] was created at the same time as [b] or later: the creation
    timestamps are compared as strings, byte by byte. *)
Definition not_older (a b : Project) : Prop :=
  String.leb (p_createdAt b) (p_createdAt a) = true.

(** The response of list-user-projects for the list [ps]. *)
Definition listing (ps : list Project) : Response :=
  success [("projects", VArr (project_json <$> ps));
           ("count", VNum (Z.of_nat (List.length ps)))].

(** The top-level field that a key of an update names, and whether the
    key is a plain field name (no dot). *)
Definition top_field (key : string) : string := (field_path key).1.

Definition plain_key (key : string) : bool :=
  match (field_path key).2 with [] => true | _ :: _ => false end.

(** The fields that the update-user handler protects. *)
Definition protected_fields : list string := ["uid"; "email"; "createdAt"].

Definition updated_response (d : Doc) : Response :=
  success [("user", doc_json d); ("message", VStr "Profile updated successfully")].

(** ** The other handlers of the file *)

(** The whole [users] collection as [get()] returns it: every document
    of the collection itself (the documents of collections below it are
    not part of it), by ascending document name. *)
Definition all_users (us : gmap string Doc) : list (string * Doc) :=
  merge_sort (λ a b, Is_true (String.leb a.1 b.1))
    (List.filter (λ kd, negb (has_slash kd.1)) (map_to_list us)).

(** The entry of one user in the list of all users (lines 381-387). *)
Definition user_summary (userData : Doc) : Value :=
  VObj [("uid", prop userData "uid");
        ("email", prop userData "email");
        ("name", prop userData "name");
        ("createdAt", prop userData "createdAt");
        ("totalProjects", js_or (prop userData "totalProjects") (VNum 0))].

(** The user object that verify-token returns (lines 437-445). *)
Definition verified_user (userData : Doc) : Value :=
  VObj [("uid", prop userData "uid");
        ("email", prop userData "email");
        ("name", prop userData "name");
        ("createdAt", prop userData "createdAt");
        ("lastLogin", prop userData "lastLogin");
        ("role", prop userData "role");
        ("totalProjects", js_or (prop userData "totalProjects") (VNum 0))].

Section OtherHandlers.
Variable E : Env.

(** What [admin.auth().verifyIdToken(token)] makes of a token: the [uid]
    of the decoded token, or [None] when the token is refused (malformed,
    expired, signed by someone else). Tokens are checked against the keys
    of the identity service, which the program does not hold. *)
Variable id_token_uid : Value → option string.

(** [GET /] (lines 56-79). *)
Definition health : Eff Response :=
  try_catch
    (t ← date_now E;
     mret (mkResponse 200
             (VObj [("status", VStr "online");
                    ("message", VStr "Framer + Firebase Backend is running!");
                    ("timestamp", VStr (toISOString t));
                    ("firebaseStatus",
                     VStr (if firebaseInitialized E then "initialized" else "disabled"));
                    ("endpoints",
                     VArr [VStr "POST /api/register - Register new user";
                           VStr "POST /api/login - Login user";
                           VStr "GET /api/user/:id - Get user data";
                           VStr "POST /api/projects - Create project";
                           VStr "GET /api/users - Get all users (admin)"])])))
    (λ msg, mret (mkResponse 500 (VObj [("error", VStr msg); ("status", VStr "error")]))).

(** [db.collection('users').get()]: it fails when the environment says
    that the next call fails. [Call] has no constructor for this read, so
    the trace does not record it. *)
Definition users_list : Eff (list (string * Doc)) :=
  λ w, match fault E (List.length (calls w)) with
       | Some msg => (Throw msg, w)
       | None => (Ok (all_users (users w)), w)
       end.

(** [GET /api/users] (lines 374-403). *)
Definition list_users : Eff Response :=
  try_catch
    (usersSnapshot ← users_list;
     let users := user_summary <$> usersSnapshot.*2 in
     mret (success [("users", VArr users);
                    ("count", VNum (Z.of_nat (List.length users)))]))
    (λ _, mret (failure 500 "Failed to fetch users")).

(** [admin.auth().verifyIdToken(token)] followed by [.uid]. *)
Definition auth_verifyIdToken (token : Value) : Eff string :=
  match id_token_uid token with
  | Some uid => mret uid
  | None => throw "Decoding Firebase ID token failed."
  end.

(** [POST /api/verify] (lines 408-455). *)
Definition verify_token (body : gmap string Value) : Eff Response :=
  try_catch
    (let token := prop body "token" in
     if negb (truthy token) then mret (failure 401 "No token provided")
     else
       userId ← auth_verifyIdToken token;
       userDoc ← users_get E (VStr userId);
       match userDoc with
       | None => mret (failure 404 "User not found")
       | Some userData => mret (success [("user", verified_user userData)])
       end)
    (λ _, mret (failure 401 "Invalid or expired token")).

End OtherHandlers.

(** ** Statements about all handlers *)

(** The run ends with a response (nothing is thrown out of the handler),
    its status is one of [codes], and its [success] field says whether the
    status is 200. *)
Definition replies (codes : list Z) (run : Result Response * World) : Prop :=
  ∃ r fields,
    run.1 = Ok r ∧ status r ∈ codes ∧
    payload r = VObj (("success", VBool (Z.eqb (status r) 200)) :: fields).

(** Both collections and the accounts are the same in [w'] as in [w]. *)
Definition same_data (w w' : World) : Prop :=
  users w' = users w ∧ projects w' = projects w ∧ accounts w' = accounts w.

(** Nothing of [w] is removed in [w']: every user and project document
    and every account is still there. *)
Definition keeps_records (w w' : World) : Prop :=
  dom (users w) ⊆ dom (users w') ∧
  dom (projects w) ⊆ dom (projects w') ∧
  accounts w `prefix_of` accounts w'.

(** The user document that registration writes (lines 127-140). *)
Definition registered_doc (uid : string) (email name : Value) (t1 t2 : Z) : Doc :=
  list_to_map
    [("uid", VStr uid); ("email", email); ("name", name);
     ("createdAt", VStr (toISOString t1));
     ("lastLogin", VStr (toISOString t2));
     ("role", VStr "user");
     ("totalProjects", VNum 0);
     ("settings", VObj [("theme", VStr "light"); ("notifications", VBool true)]);
     ("projects", VArr [])].

(** The message of a 400 answer of register for an error of message [msg]. *)
Definition registration_error (msg : string) : string :=
  if String.eqb msg "" then "Registration failed" else msg.

(** The answer of a successful registration (lines 149-159). *)
Definition registered_response (E : Env) (uid : string) (email name : Value) (t1 : Z)
  : Response :=
  success [("user", VObj [("uid", VStr uid); ("email", email); ("name", name);
                          ("createdAt", VStr (toISOString t1))]);
           ("token", VStr (sign E uid));
           ("message", VStr "Registration successful!")].

(** The user object that get-user returns for a freshly registered user. *)
Definition fresh_profile (uid : string) (email name : Value) (t1 t2 : Z) : Value :=
  VObj [("uid", VStr uid); ("email", email); ("name", name);
        ("createdAt", VStr (toISOString t1));
        ("lastLogin", VStr (toISOString t2));
        ("role", VStr "user");
        ("totalProjects", VNum 0);
        ("settings", VObj [("theme", VStr "light"); ("notifications", VBool true)])].

(** The email of the request, as the identity service records it, is the
    email of one of the accounts. *)
Definition email_taken (E : Env) (w : World) (email : Value) : bool :=
  existsb (λ a, value_eqb (a_email a) (recorded_email E email)) (accounts w).

(** ** Loading the module (lines 32-51) *)

(** What start-up depends on: the environment variable [FIREBASE_CONFIG],
    whether [JSON.parse], [credential.cert] and [initializeApp] all accept
    a given value of it, and whether a default Firebase app was
    initialised by other code before this module is loaded (this
    repository has no such code). *)
Record Boot : Type := mkBoot {
  firebase_config : option string;
  config_accepted : string → bool;
  app_elsewhere : bool
}.

(** [firebaseInitialized] after the [try] block of lines 35-49: it is set
    when the variable is a non-empty string and nothing in the block
    throws; [initializeApp] throws when a default app exists already. *)
Definition boot_flag (b : Boot) : bool :=
  match firebase_config b with
  | Some config =>
      negb (String.eqb config "") && config_accepted b config && negb (app_elsewhere b)
  | None => false
  end.

(** Line 51, [const db = admin.firestore()], is outside the [try] block and
    throws when there is no default app. [load] is [None] when the module
    throws while it is loaded, so that no handler is ever installed, and
    otherwise the flag that the handlers will read. *)
Definition load (b : Boot) : option bool :=
  if app_elsewhere b || boot_flag b then Some (boot_flag b) else None.

Definition with_flag (flag : bool) (E : Env) : Env :=
  mkEnv flag (clock E) (fault E) (new_uid E) (sign E) (recorded_email E).

(** The environment in which the handlers run after start-up [b], if they
    run at all. *)
Definition serving (b : Boot) (E : Env) : option Env :=
  (λ flag, with_flag flag E) <$> load b.

(** What a request gets from the program started by [b]: the run of its
    handler, or [None] when the module did not load and there is no
    handler to run. *)
Definition answer (b : Boot) (E : Env) (handler : Env → Eff Response) (w : World)
  : option (Result Response * World) :=
  (λ E', handler E' w) <$> serving b E.

(** ** Statements on create-project and update-user *)

(** The property of create-project on absent fields as the specification
    words it: for a stored user, when no call fails, the project is
    stored with whatever the request has for [name] and [type], nothing
    included. *)
Definition absent_fields_are_stored (E : Env) (body : gmap string Value) (w : World)
  : Prop :=
  (∃ s key d, names_user w (prop body "userId") s key d) →
  quiet E w 3 →
  ∃ r w', create_project E body w = (Ok r, w') ∧ status r = 200 ∧
          projects w' !! p_id (new_project E body w) = Some (new_project E body w).

(** A counter that can be incremented exactly: the store and JavaScript
    agree on the integers from 0 to 2^53 - 1. *)
Definition counter_range (n : Z) : Prop := 0 ≤ n ∧ n + 1 ≤ 9007199254740991.

(** The value at the end of [path] below [v]. *)
Fixpoint get_in (path : list string) (v : Value) : Value :=
  match path with
  | [] => v
  | k :: rest =>
      match v with
      | VObj fs => get_in rest (alist_get k fs)
      | _ => VUndef
      end
  end.

(** The value of a document at a path that starts with a top-level field. *)
Definition doc_get (path : list string) (d : Doc) : Value :=
  match path with
  | [] => VUndef
  | top :: rest => get_in rest (prop d top)
  end.

(** The path that a key of an update names. *)
Definition key_path (key : string) : list string :=
  (field_path key).1 :: (field_path key).2.

(** Neither path is the beginning of the other. *)
Definition apart (p q : list string) : Prop :=
  ¬ p `prefix_of` q ∧ ¬ q `prefix_of` p.

(** No key of the update names a field inside the field of another key
    (the store refuses an update in which two keys overlap). *)
Definition conflict_free (upd : gmap string Value) : Prop :=
  ∀ k1 k2, is_Some (upd !! k1) → is_Some (upd !! k2) → k1 ≠ k2 →
           apart (key_path k1) (key_path k2).

(** ** Basic facts *)

Lemma prop_lookup_None (o : gmap string Value) k : o !! k = None → prop o k = VUndef.
Proof. intros H. unfold prop. by rewrite H. Qed.

Lemma prop_lookup_Some (o : gmap string Value) k v : o !! k = Some v → prop o k = v.
Proof. intros H. unfold prop. by rewrite H. Qed.

Lemma sdk_call_ok {A} E c (op : World → Result A * World) w :
  fault E (List.length (calls w)) = None → sdk_call E c op w = op (log c w).
Proof. intros H. unfold sdk_call. by rewrite H. Qed.

Lemma sdk_call_fault {A} E c (op : World → Result A * World) w msg :
  fault E (List.length (calls w)) = Some msg → sdk_call E c op w = (Throw msg, log c w).
Proof. intros H. unfold sdk_call. by rewrite H. Qed.

Lemma quiet_head E w k : quiet E w (S k) → fault E (List.length (calls w)) = None.
Proof. intros H. specialize (H O). rewrite Nat.add_0_r in H. apply H. lia. Qed.

Lemma quiet_log E w k c : quiet E w (S k) → quiet E (log c w) k.
Proof.
  intros H i Hi. simpl. rewrite length_app. simpl.
  replace (List.length (calls w) + 1 + i)%nat with (List.length (calls w) + S i)%nat by lia.
  apply H. lia.
Qed.

Lemma same_services_tick w : same_services w (tick w).
Proof. by repeat split. Qed.

Lemma same_services_trans w1 w2 w3 :
  same_services w1 w2 → same_services w2 w3 → same_services w1 w3.
Proof. intros (?&?&?&?) (?&?&?&?). repeat split; congruence. Qed.

(** The ISO rendering on three known instants, and the two ways in which
    ids are made from the clock. *)
Example toISOString_epoch : toISOString 0 = "1970-01-01T00:00:00.000Z".
Proof. reflexivity. Qed.

Example toISOString_2023 : toISOString 1700000000000 = "2023-11-14T22:13:20.000Z".
Proof. reflexivity. Qed.

Example toISOString_leap_day : toISOString 951825599999 = "2000-02-29T11:59:59.999Z".
Proof. reflexivity. Qed.

Example str_num_project : str_num "project_" 1700000000000 = "project_1700000000000".
Proof. reflexivity. Qed.

(** X22. Ids made from the clock coincide exactly when the readings do:
    two requests get the same project id (or the same mock user id) if and
    only if [Date.now()] gave them the same millisecond. *)
Lemma str_num_inj (pre : string) (a b : Z) : str_num pre a = str_num pre b ↔ a = b.
Proof.
  split; [|by intros ->]. unfold str_num. intros H.
  induction pre as [|c pre IH]; simpl in H.
  - by apply (inj pretty).
  - apply IH. by inversion H.
Qed.

(** ** Register: validation *)

(** C5. A register request that lacks any of [email], [password] or [name]
    is answered with status 400 and the missing-fields error, and the world
    is left exactly as it was: no account is created, no document is
    written, no SDK call is made. *)
Theorem register_missing_field (E : Env) (body : gmap string Value) (w : World) :
  body !! "email" = None ∨ body !! "password" = None ∨ body !! "name" = None →
  register E body w
  = (Ok (failure 400 "Missing required fields: email, password, name"), w).
Proof.
  intros H. unfold register, try_catch.
  destruct H as [H | [H | H]]; rewrite (prop_lookup_None _ _ H); simpl;
    rewrite ?orb_true_r; reflexivity.
Qed.

Lemma register_missing_field_witness :
  register (calm_env true (λ _, 0)) {[ "email" := VStr "a@b.c"; "name" := VStr "Al" ]}
           empty_world
  = (Ok (failure 400 "Missing required fields: email, password, name"), empty_world).
Proof.
  apply (register_missing_field (calm_env true (λ _, 0))
           {[ "email" := VStr "a@b.c"; "name" := VStr "Al" ]} empty_world).
  right; left. reflexivity.
Defined.

(** ** Register and login: mock mode *)

(** C6 does not hold on the code: the mock mode is never served. When no
    other code has initialised a default Firebase app, a start-up that
    leaves the flag false (no [FIREBASE_CONFIG], or one that is refused)
    makes line 51 throw while the module is loaded, so no handler is
    installed: a register or login request with all its fields gets no
    answer from a handler, let alone a success with a synthetic id.
    Whenever the handlers do run, the flag is true and register and login
    do not take their mock branch. *)
Theorem mock_mode_never_served (b : Boot) (E : Env) (body : gmap string Value)
    (w : World) :
  app_elsewhere b = false →
  (boot_flag b = false →
   load b = None ∧
   answer b E (λ E', register E' body) w = None ∧
   answer b E (λ E', login E' body) w = None) ∧
  (∀ E', serving b E = Some E' → firebaseInitialized E' = true).
Proof.
  intros Happ. unfold answer, serving, load. rewrite Happ. simpl. split.
  - intros Hflag. by rewrite Hflag.
  - intros E' HE. destruct (boot_flag b); [|discriminate].
    simpl in HE. by inversion HE.
Qed.

Lemma mock_mode_never_served_witness :
  let b := mkBoot None (λ _, true) false in
  let E := calm_env false (λ _, 0) in
  let body : gmap string Value :=
    {[ "email" := VStr "al@b.c"; "password" := VStr "secret"; "name" := VStr "Al" ]} in
  load b = None ∧
  answer b E (λ E', register E' body) empty_world = None ∧
  answer b E (λ E', login E' body) empty_world = None.
Proof.
  intros b E body.
  exact (proj1 (mock_mode_never_served b E body empty_world eq_refl) eq_refl).
Defined.

(** The flag is false in a running server only when a default app was
    initialised by other code before the module was loaded. *)
Lemma flag_false_needs_other_app (b : Boot) :
  load b = Some false → app_elsewhere b = true.
Proof.
  unfold load. destruct (app_elsewhere b); [done|]. simpl.
  destruct (boot_flag b); [|done]. intros H. by inversion H.
Qed.

(** With a configuration that is accepted and no other app, the module
    loads with the flag true. *)
Lemma load_configured (b : Boot) (config : string) :
  firebase_config b = Some config → config ≠ "" →
  config_accepted b config = true → app_elsewhere b = false →
  load b = Some true.
Proof.
  intros Hc Hne Hacc Happ. unfold load, boot_flag.
  apply String.eqb_neq in Hne. by rewrite Hc, Hne, Hacc, Happ.
Qed.

(** X23. What the two handlers do when they run with the flag false
    (which takes a default app initialised by other code before the module
    is loaded). Register with its three fields present, and login with a
    password and a non-empty string as email, answer 200 with a user id
    and a token made from clock readings; the clock is read three times
    and no SDK call is made. A login whose email is present but is not a
    string makes [email.split] throw and is answered 401 with the error
    "Invalid credentials". *)
Lemma mock_mode_success (E : Env) (body : gmap string Value) (w : World) :
  firebaseInitialized E = false →
  truthy (prop body "password") = true →
  let t1 := clock E (ticks w) in
  let t2 := clock E (S (ticks w)) in
  let t3 := clock E (S (S (ticks w))) in
  let w' := tick (tick (tick w)) in
  same_services w w' ∧
  (truthy (prop body "email") = true → truthy (prop body "name") = true →
   register E body w
   = (Ok (mock_response t1 t2 t3 (prop body "email") (prop body "name")
            "Registration successful (Firebase disabled - mock mode)!"), w')) ∧
  (∀ s, prop body "email" = VStr s → s ≠ "" →
   login E body w
   = (Ok (mock_response t1 t2 t3 (VStr s) (VStr (before_at s))
            "Login successful (Firebase disabled - mock mode)!"), w')) ∧
  (truthy (prop body "email") = true → (∀ s, prop body "email" ≠ VStr s) →
   login E body w = (Ok (failure 401 "Invalid credentials"), tick w)).
Proof.
  intros Hflag Hpw. cbv zeta. split; [|split; [|split]].
  - by repeat split.
  - intros Hem Hnm. unfold register, try_catch. rewrite Hem, Hpw, Hnm, Hflag. reflexivity.
  - intros s Hs Hne. unfold login, try_catch. rewrite Hs, Hpw, Hflag.
    simpl. apply String.eqb_neq in Hne. rewrite Hne. reflexivity.
  - intros Hem Hns. unfold login, try_catch. rewrite Hem, Hpw, Hflag. simpl.
    destruct (prop body "email") eqn:Hv; try reflexivity.
    by destruct (Hns s).
Qed.

Lemma mock_mode_success_witness :
  let E := calm_env false (λ n, 1700000000000 + Z.of_nat n) in
  let body : gmap string Value :=
    {[ "email" := VStr "al@b.c"; "password" := VStr "secret"; "name" := VStr "Al" ]} in
  let odd : gmap string Value := {[ "email" := VNum 5; "password" := VStr "secret" ]} in
  let w' := tick (tick (tick empty_world)) in
  register E body empty_world
  = (Ok (mock_response 1700000000000 1700000000001 1700000000002
           (VStr "al@b.c") (VStr "Al")
           "Registration successful (Firebase disabled - mock mode)!"), w') ∧
  login E body empty_world
  = (Ok (mock_response 1700000000000 1700000000001 1700000000002
           (VStr "al@b.c") (VStr "al")
           "Login successful (Firebase disabled - mock mode)!"), w') ∧
  login E odd empty_world = (Ok (failure 401 "Invalid credentials"), tick empty_world).
Proof.
  intros E body odd w'.
  pose proof (mock_mode_success E body empty_world eq_refl eq_refl) as (_ & Hreg & Hlog & _).
  pose proof (mock_mode_success E odd empty_world eq_refl eq_refl) as (_ & _ & _ & H401).
  split; [|split].
  - exact (Hreg eq_refl eq_refl).
  - apply (Hlog "al@b.c"); [reflexivity | discriminate].
  - apply H401; [reflexivity | intros s Hs; discriminate].
Defined.

(** ** Login with the store available *)

(** C7. With the store available and [email] and [password] present, login
    mints a custom token for the id ["user_"] followed by the clock reading
    and answers 200 with it. The only SDK call is that minting: the
    accounts of the identity service are not consulted, and any other
    present password gives the same outcome. When the minting fails, or when
    [email.split] throws because the email is not a string, the answer is
    401 with the error "Invalid credentials". *)
Theorem login_unverified_token (E : Env) (body : gmap string Value) (w : World) :
  firebaseInitialized E = true →
  truthy (prop body "email") = true →
  truthy (prop body "password") = true →
  let uid := str_num "user_" (clock E (ticks w)) in
  let w' := log (AuthCreateCustomToken uid) (tick (tick w)) in
  (∀ s, prop body "email" = VStr s →
        fault E (List.length (calls w)) = None →
        login E body w = (Ok (login_response E w s), w')) ∧
  (∀ s msg, prop body "email" = VStr s →
        fault E (List.length (calls w)) = Some msg →
        login E body w = (Ok (failure 401 "Invalid credentials"), w')) ∧
  ((∀ s, prop body "email" ≠ VStr s) →
        login E body w = (Ok (failure 401 "Invalid credentials"), tick w)) ∧
  (∀ pw, truthy pw = true → login E (<["password" := pw]> body) w = login E body w).
Proof.
  intros Hflag Hem Hpw. cbv zeta. repeat split.
  - intros s Hs Hf. unfold login, try_catch. rewrite Hem, Hpw, Hflag, Hs. simpl.
    unfold mbind, Eff_bind, bind, date_now, auth_createCustomToken. simpl.
    rewrite sdk_call_ok by exact Hf. reflexivity.
  - intros s msg Hs Hf. unfold login, try_catch. rewrite Hem, Hpw, Hflag, Hs. simpl.
    unfold mbind, Eff_bind, bind, date_now, auth_createCustomToken. simpl.
    rewrite (sdk_call_fault _ _ _ _ msg) by exact Hf. reflexivity.
  - intros Hns. unfold login, try_catch. rewrite Hem, Hpw, Hflag. simpl.
    destruct (prop body "email") eqn:Hv; try reflexivity.
    by destruct (Hns s).
  - intros pw Hpw'. unfold login.
    assert (prop (<["password" := pw]> body) "email" = prop body "email") as ->.
    { unfold prop. by rewrite lookup_insert_ne. }
    assert (prop (<["password" := pw]> body) "password" = pw) as ->.
    { unfold prop. by rewrite lookup_insert_eq. }
    unfold try_catch. by rewrite Hem, Hpw, Hpw'.
Qed.

Lemma login_unverified_token_witness :
  let E := calm_env true (λ n, 1700000000000 + Z.of_nat n) in
  let body : gmap string Value :=
    {[ "email" := VStr "al@b.c"; "password" := VStr "not the password" ]} in
  login E body empty_world
  = (Ok (login_response E empty_world "al@b.c"),
     log (AuthCreateCustomToken "user_1700000000000") (tick (tick empty_world))).
Proof.
  intros E body.
  exact (proj1 (login_unverified_token E body empty_world eq_refl eq_refl eq_refl)
           "al@b.c" eq_refl eq_refl).
Defined.

(** ** Evaluation of the store calls *)

(** Ids without a slash are the paths of documents, and so are the ids
    made from the clock. *)
Lemma has_slash_no_double (s : string) : has_slash s = false → has_double_slash s = false.
Proof.
  induction s as [|c s IH]; [done|]. simpl. intros H.
  apply orb_false_iff in H as [Hc Hs]. destruct s as [|c' s']; [done|].
  rewrite Hc. simpl. by apply IH.
Qed.

Lemma split_slash_plain (s : string) : has_slash s = false → split_slash s = (s, []).
Proof.
  induction s as [|c s IH]; [done|]. simpl. intros H.
  apply orb_false_iff in H as [Hc Hs]. by rewrite (IH Hs), Hc.
Qed.

Lemma doc_key_plain (s : string) : plain_id s = true → doc_key s = Some s.
Proof.
  unfold plain_id, doc_key, segments. intros H.
  apply andb_true_iff in H as [Hne Hs]. apply negb_true_iff in Hs.
  rewrite (has_slash_no_double s Hs), (split_slash_plain s Hs). simpl.
  by rewrite Hne.
Qed.

Lemma has_slash_app (s1 s2 : string) :
  has_slash (s1 +:+ s2) = has_slash s1 || has_slash s2.
Proof.
  induction s1 as [|c s1 IH]; [done|].
  change (has_slash (String c (s1 +:+ s2)) = has_slash (String c s1) || has_slash s2).
  simpl. by rewrite IH, orb_assoc.
Qed.

Lemma pretty_N_go_no_slash (x : N) (s : string) :
  has_slash s = false → has_slash (pretty_N_go x s) = false.
Proof.
  revert s. induction (N.lt_wf_0 x) as [x _ IH]; intros s Hs.
  assert (x = 0 ∨ 0 < x)%N as [-> | Hx] by lia.
  - by rewrite pretty_N_go_0.
  - rewrite pretty_N_go_step by done. apply IH.
    { by apply N.div_lt. }
    simpl. rewrite Hs. unfold pretty_N_char. by repeat case_match.
Qed.

Lemma pretty_Z_no_slash (n : Z) : has_slash (pretty n) = false.
Proof.
  assert (∀ x : N, has_slash (pretty x) = false) as HN.
  { intros x. unfold pretty, pretty_N. case_decide; [done|].
    by apply pretty_N_go_no_slash. }
  destruct n as [|x|x]; [done | apply (HN (Npos x)) |].
  change (pretty (Zneg x)) with ("-" +:+ pretty (Npos x)).
  rewrite has_slash_app. simpl. apply HN.
Qed.

Lemma plain_id_str_num (pre : string) (n : Z) :
  plain_id pre = true → plain_id (str_num pre n) = true.
Proof.
  unfold plain_id, str_num. intros H. apply andb_true_iff in H as [Hne Hs].
  apply negb_true_iff in Hs. apply andb_true_iff. split.
  - destruct pre; [done|]. reflexivity.
  - by rewrite has_slash_app, Hs, pretty_Z_no_slash.
Qed.

Lemma project_id_key (n : Z) :
  doc_key (str_num "project_" n) = Some (str_num "project_" n).
Proof. apply doc_key_plain. by apply plain_id_str_num. Qed.

(** The paths that [doc()] accepts and refuses, on examples. *)
Example doc_key_examples :
  doc_key "uid0" = Some "uid0" ∧ doc_key "/a/" = Some "a" ∧
  doc_key "a/b/c" = Some "a/b/c" ∧
  doc_key "" = None ∧ doc_key "/" = None ∧ doc_key "a/b" = None ∧
  doc_key "a//b/c" = None ∧ doc_key "a/b/c/d" = None.
Proof. repeat split; reflexivity. Qed.

Lemma doc_ref_ok s key w : doc_key s = Some key → doc_ref (VStr s) w = (Ok key, w).
Proof. intros H. unfold doc_ref. by rewrite H. Qed.

Lemma doc_ref_fail v w :
  (∀ s, v = VStr s → doc_key s = None) → ∃ msg, doc_ref v w = (Throw msg, w).
Proof.
  intros H. destruct v; try (eexists; reflexivity).
  unfold doc_ref. rewrite (H s eq_refl). eexists; reflexivity.
Qed.

Lemma users_get_ok E s key w :
  doc_key s = Some key → fault E (List.length (calls w)) = None →
  users_get E (VStr s) w = (Ok (users w !! key), log (UsersGet key) w).
Proof.
  intros Hs Hf. unfold users_get, mbind, Eff_bind, bind.
  rewrite (doc_ref_ok s key) by done. by rewrite sdk_call_ok.
Qed.

Lemma users_get_fault E s key w msg :
  doc_key s = Some key → fault E (List.length (calls w)) = Some msg →
  users_get E (VStr s) w = (Throw msg, log (UsersGet key) w).
Proof.
  intros Hs Hf. unfold users_get, mbind, Eff_bind, bind.
  rewrite (doc_ref_ok s key) by done. by rewrite (sdk_call_fault _ _ _ _ msg).
Qed.

Lemma users_get_invalid E v w :
  (∀ s, v = VStr s → doc_key s = None) → ∃ msg, users_get E v w = (Throw msg, w).
Proof.
  intros H. destruct (doc_ref_fail v w H) as [msg Hm].
  exists msg. unfold users_get, mbind, Eff_bind, bind. by rewrite Hm.
Qed.

Lemma users_update_ok E s key upd d w :
  doc_key s = Some key → fault E (List.length (calls w)) = None →
  users w !! key = Some d →
  users_update E (VStr s) upd w
  = (Ok (), set_users (insert key (doc_update upd d)) (log (UsersUpdate key upd) w)).
Proof.
  intros Hs Hf Hd. unfold users_update, mbind, Eff_bind, bind.
  rewrite (doc_ref_ok s key) by done. rewrite sdk_call_ok by done. simpl. by rewrite Hd.
Qed.

Lemma projects_set_ok E n p w :
  project_defined p = true → fault E (List.length (calls w)) = None →
  projects_set E (VStr (str_num "project_" n)) p w
  = (Ok (), set_projects (insert (str_num "project_" n) p)
              (log (ProjectsSet (str_num "project_" n) p) w)).
Proof.
  intros Hp Hf. unfold projects_set, mbind, Eff_bind, bind.
  rewrite (doc_ref_ok _ _ _ (project_id_key n)). rewrite Hp. by rewrite sdk_call_ok.
Qed.

Lemma projects_set_undefined E n p w :
  project_defined p = false →
  ∃ msg, projects_set E (VStr (str_num "project_" n)) p w = (Throw msg, w).
Proof.
  intros Hp. unfold projects_set, mbind, Eff_bind, bind.
  rewrite (doc_ref_ok _ _ _ (project_id_key n)). rewrite Hp. by eexists.
Qed.

(** ** Get user *)

(** C9. For a stored user, get-user answers 200 with a [user] object whose
    fields are exactly [uid], [email], [name], [createdAt], [lastLogin],
    [role], [totalProjects] and [settings], in this order, each with the
    value that the stored record has for it; [projects] and every other
    stored field are left out. *)
Theorem get_user_public_fields (E : Env) (userId key : string) (d : Doc) (w : World) :
  doc_key userId = Some key →
  users w !! key = Some d →
  fault E (List.length (calls w)) = None →
  ∃ obj,
    get_user E userId w
    = (Ok (success [("user", VObj obj)]), log (UsersGet key) w) ∧
    obj.*1 = safe_fields ∧
    (∀ k, k ∈ safe_fields → alist_get k obj = prop d k) ∧
    ("projects" ∉ obj.*1) ∧
    (∀ k, k ∉ safe_fields → k ∉ obj.*1).
Proof.
  intros Hid Hd Hf. eexists. split; [|split; [|split; [|split]]].
  - unfold get_user, try_catch, mbind, Eff_bind, bind.
    rewrite (users_get_ok E userId key) by done. rewrite Hd. reflexivity.
  - reflexivity.
  - intros k Hk. unfold safe_fields in Hk.
    repeat (apply elem_of_cons in Hk as [-> | Hk]; [reflexivity|]).
    by apply elem_of_nil in Hk.
  - simpl. intros Hp.
    repeat (apply elem_of_cons in Hp as [Hp | Hp]; [discriminate|]).
    by apply elem_of_nil in Hp.
  - intros k Hk. exact Hk.
Qed.

Lemma get_user_public_fields_witness :
  let w := mkWorld {[ "u1" := {[ "uid" := VStr "u1"; "projects" := VArr [VStr "p"] ]} ]}
             ∅ [] 0 [] in
  ∃ obj,
    get_user (calm_env true (λ _, 0)) "u1" w
    = (Ok (success [("user", VObj obj)]), log (UsersGet "u1") w) ∧
    obj.*1 = safe_fields ∧
    (∀ k, k ∈ safe_fields →
          alist_get k obj
          = prop {[ "uid" := VStr "u1"; "projects" := VArr [VStr "p"] ]} k) ∧
    ("projects" ∉ obj.*1) ∧
    (∀ k, k ∉ safe_fields → k ∉ obj.*1).
Proof.
  intros w.
  apply (get_user_public_fields (calm_env true (λ _, 0)) "u1" "u1"
           {[ "uid" := VStr "u1"; "projects" := VArr [VStr "p"] ]} w);
    reflexivity.
Defined.

(** ** Create project: unknown user *)

(** C8, as stated, fails: a request without [userId], with one that is not
    a string, or with one that is not the path of a document (such as
    [a/b]) names no user record, but [doc(userId)] throws and the answer is
    500, not 404. *)
Lemma create_project_invalid_user_id :
  ¬ unknown_user_gets_404 (calm_env true (λ _, 0))
      {[ "name" := VStr "Site"; "type" := VStr "web" ]} empty_world ∧
  ¬ unknown_user_gets_404 (calm_env true (λ _, 0))
      {[ "userId" := VNum 42; "name" := VStr "Site"; "type" := VStr "web" ]}
      empty_world ∧
  ¬ unknown_user_gets_404 (calm_env true (λ _, 0))
      {[ "userId" := VStr "a/b"; "name" := VStr "Site"; "type" := VStr "web" ]}
      empty_world.
Proof.
  split_and!; intros H; destruct H as (r & w' & Hrun & Hst & _);
    try (intros (s & key & d & _ & _ & Hd); vm_compute in Hd; discriminate);
    vm_compute in Hrun; inversion Hrun; subst r; vm_compute in Hst; discriminate.
Qed.

(** The run of create-project when [userId] names no stored record. *)
Lemma create_project_no_user (E : Env) (body : gmap string Value) (w : World) :
  (¬ ∃ s key d, names_user w (prop body "userId") s key d) →
  ∃ r w' cs,
    create_project E body w = (Ok r, w') ∧
    projects w' = projects w ∧ users w' = users w ∧
    calls w' = calls w ++ cs ∧ Forall (λ c, is_write c = false) cs ∧
    (∀ s key, prop body "userId" = VStr s → doc_key s = Some key →
          fault E (List.length (calls w)) = None →
          r = failure 404 "User not found" ∧ cs = [UsersGet key]) ∧
    (∀ s key, prop body "userId" = VStr s → doc_key s = Some key →
          is_Some (fault E (List.length (calls w))) →
          r = failure 500 "Failed to create project" ∧ cs = [UsersGet key]) ∧
    ((∀ s, prop body "userId" = VStr s → doc_key s = None) →
          r = failure 500 "Failed to create project" ∧ cs = []).
Proof.
  intros Hno. unfold create_project, try_catch, mbind, Eff_bind, bind.
  destruct (prop body "userId") as [| | b | n | s | l | fs] eqn:Hv.
  5: destruct (doc_key s) as [key|] eqn:Hk.
  5: {
    assert (users w !! key = None) as Hnone.
    { destruct (users w !! key) as [d|] eqn:Hd; [|done].
      destruct Hno. exists s, key, d. by repeat split. }
    destruct (fault E (List.length (calls w))) as [msg|] eqn:Hf.
    - rewrite (users_get_fault _ _ key _ msg) by done.
      eexists _, _, [UsersGet key].
      split; [reflexivity|]. split; [reflexivity|]. split; [reflexivity|].
      split; [reflexivity|]. split; [by repeat constructor|].
      split; [|split].
      + intros s' key' Hs' Hk' Hf'. congruence.
      + intros s' key' Hs' Hk' _. inversion Hs'; subst s'.
        rewrite Hk in Hk'. by inversion Hk'.
      + intros H. specialize (H s eq_refl). congruence.
    - rewrite (users_get_ok _ _ key) by done. rewrite Hnone.
      eexists _, _, [UsersGet key].
      split; [reflexivity|]. split; [reflexivity|]. split; [reflexivity|].
      split; [reflexivity|]. split; [by repeat constructor|].
      split; [|split].
      + intros s' key' Hs' Hk' _. inversion Hs'; subst s'.
        rewrite Hk in Hk'. by inversion Hk'.
      + intros s' key' _ _ [msg Hm]. congruence.
      + intros H. specialize (H s eq_refl). congruence. }
  5: {
    unfold users_get, mbind, Eff_bind, bind, doc_ref. rewrite Hk.
    eexists _, _, []. rewrite app_nil_r.
    split; [reflexivity|]. split; [reflexivity|]. split; [reflexivity|].
    split; [reflexivity|]. split; [constructor|].
    split; [|split].
    - intros s' key' Hs' Hk' _. inversion Hs'; subst s'. congruence.
    - intros s' key' Hs' Hk' _. inversion Hs'; subst s'. congruence.
    - done. }
  all: eexists _, _, []; rewrite app_nil_r;
    (split; [reflexivity|]); (split; [reflexivity|]); (split; [reflexivity|]);
    (split; [reflexivity|]); (split; [constructor|]);
    (split; [|split]); [intros s' key' Hs'; inversion Hs'
                       | intros s' key' Hs'; inversion Hs' | done].
Qed.

(** C8, amended. When [userId] names no stored user record, create-project
    writes nothing: both collections are unchanged and the calls it made
    are reads. If [userId] is a string that is the path of a document and
    the lookup succeeds, the answer is 404 with the error "User not found"
    and the lookup is the only call; if the lookup fails the answer is 500.
    If [userId] is absent, not a string, or a string that is not the path
    of a document (the empty string, a path with [//], a path with an even
    number of segments such as [a/b]), the answer is 500 and no call is
    made. *)
Theorem create_project_unknown_user (E : Env) (body : gmap string Value) (w : World) :
  (¬ ∃ s key d, names_user w (prop body "userId") s key d) →
  ∃ r w' cs,
    create_project E body w = (Ok r, w') ∧
    projects w' = projects w ∧ users w' = users w ∧
    calls w' = calls w ++ cs ∧ Forall (λ c, is_write c = false) cs ∧
    (∀ s key, prop body "userId" = VStr s → doc_key s = Some key →
          fault E (List.length (calls w)) = None →
          r = failure 404 "User not found" ∧ cs = [UsersGet key]) ∧
    (∀ s key, prop body "userId" = VStr s → doc_key s = Some key →
          is_Some (fault E (List.length (calls w))) →
          r = failure 500 "Failed to create project" ∧ cs = [UsersGet key]) ∧
    ((∀ s, prop body "userId" = VStr s → doc_key s = None) →
          r = failure 500 "Failed to create project" ∧ cs = []).
Proof. exact (create_project_no_user E body w). Qed.

Lemma create_project_unknown_user_witness :
  let E := calm_env true (λ _, 0) in
  let body : gmap string Value :=
    {[ "userId" := VStr "ghost"; "name" := VStr "Site"; "type" := VStr "web" ]} in
  ∃ w', create_project E body empty_world = (Ok (failure 404 "User not found"), w') ∧
        projects w' = ∅ ∧ calls w' = [UsersGet "ghost"].
Proof.
  intros E body.
  destruct (create_project_unknown_user E body empty_world)
    as (r & w' & cs & Hrun & Hp & _ & Hc & _ & H404 & _).
  - intros (s & key & d & _ & _ & Hd). vm_compute in Hd. discriminate.
  - destruct (H404 "ghost" "ghost") as [-> ->]; [reflexivity | reflexivity | reflexivity |].
    exists w'. repeat split; assumption.
Defined.

(** ** Create project for a stored user *)

Lemma quiet_0 E w : quiet E w 0.
Proof. intros i Hi. lia. Qed.

Lemma quiet_or_fault E w k :
  quiet E w k ∨ ∃ i, (i < k)%nat ∧ is_Some (fault E (List.length (calls w) + i)).
Proof.
  induction k as [|k [Hq | (i & Hi & Hsome)]].
  - left. apply quiet_0.
  - destruct (fault E (List.length (calls w) + k)) as [msg|] eqn:Hk.
    + right. exists k. split; [lia|]. rewrite Hk. by eexists.
    + left. intros i Hi.
      destruct (decide (i = k)) as [-> | Hne]; [done|]. apply Hq. lia.
  - right. exists i. split; [lia | done].
Qed.

Lemma quiet_not_fault E w k i :
  quiet E w k → (i < k)%nat → ¬ is_Some (fault E (List.length (calls w) + i)).
Proof. intros Hq Hi [msg Hm]. rewrite Hq in Hm by done. discriminate. Qed.

Lemma js_or_defined (a : Value) : is_defined (js_or a (VStr "")) = true.
Proof. unfold js_or. destruct (truthy a) eqn:Ha; [|done]. by destruct a. Qed.

Lemma project_defined_new id userId name type description created updated :
  is_defined userId = true → is_defined name = true → is_defined type = true →
  project_defined (mkProject id userId name type (js_or description (VStr ""))
                             created updated "active" [] []) = true.
Proof.
  intros Hu Hn Ht. unfold project_defined. simpl.
  by rewrite Hu, Hn, Ht, js_or_defined.
Qed.

Lemma project_undefined_new id userId name type description created updated :
  is_defined name = false ∨ is_defined type = false →
  project_defined (mkProject id userId name type description
                             created updated "active" [] []) = false.
Proof.
  intros [H | H]; unfold project_defined; simpl; rewrite H;
    by rewrite ?andb_false_r.
Qed.

(** The run of create-project in which the three calls succeed. *)
Lemma create_project_run E body w s key d :
  names_user w (prop body "userId") s key d →
  is_defined (prop body "name") = true →
  is_defined (prop body "type") = true →
  quiet E w 3 →
  create_project E body w
  = (Ok (created_response (new_project E body w)), after_create E body w key d).
Proof.
  intros (Hv & Hs & Hd) Hname Htype Hq.
  pose proof (quiet_log E w 2 (UsersGet key) Hq) as Hq2.
  pose proof (quiet_head E w 2 Hq) as Hf1.
  unfold create_project, try_catch, mbind, Eff_bind, bind.
  rewrite Hv. rewrite (users_get_ok E s key) by done. rewrite Hd. simpl.
  set (w1 := log (UsersGet key) w) in *.
  set (p := mkProject _ _ _ _ _ _ _ _ _ _).
  assert (quiet E (tick (tick (tick w1))) 2) as Hq2' by exact Hq2.
  rewrite projects_set_ok;
    [| by apply project_defined_new | by apply (quiet_head _ _ 1) ].
  pose proof (quiet_log E _ 1 (ProjectsSet (p_id p) p) Hq2') as Hq1.
  rewrite (users_update_ok _ s key _ d);
    [| done | by apply (quiet_head _ _ 0) | done ].
  unfold after_create, new_project. rewrite Hv. reflexivity.
Qed.

(** The run of create-project for a stored user when [name] or [type] is
    absent: [set()] refuses the record before any write. *)
Lemma create_project_undefined E body w s key d :
  names_user w (prop body "userId") s key d →
  is_defined (prop body "name") = false ∨ is_defined (prop body "type") = false →
  fault E (List.length (calls w)) = None →
  create_project E body w
  = (Ok (failure 500 "Failed to create project"),
     tick (tick (tick (log (UsersGet key) w)))).
Proof.
  intros (Hv & Hs & Hd) Hundef Hf.
  unfold create_project, try_catch, mbind, Eff_bind, bind.
  rewrite Hv. rewrite (users_get_ok E s key) by done. rewrite Hd. simpl.
  set (p := mkProject _ _ _ _ _ _ _ _ _ _).
  destruct (projects_set_undefined E (clock E (ticks w)) p
              (tick (tick (tick (log (UsersGet key) w))))) as [msg Hm].
  { by apply project_undefined_new. }
  fold (str_num "project_" (clock E (ticks w))).
  by rewrite Hm.
Qed.

(** Create-project for a stored user fails when one of its three calls
    fails, and then with status 500. *)
Lemma create_project_fails_on_fault E body w s key d :
  names_user w (prop body "userId") s key d →
  ¬ quiet E w 3 →
  ∃ w', create_project E body w = (Ok (failure 500 "Failed to create project"), w') ∧
        users w' = users w.
Proof.
  intros (Hv & Hs & Hd) Hnq.
  unfold create_project, try_catch, mbind, Eff_bind, bind. rewrite Hv.
  destruct (fault E (List.length (calls w))) as [m1|] eqn:Hf1.
  { rewrite (users_get_fault _ s key _ m1) by done. by eexists _; split. }
  rewrite (users_get_ok _ s key) by done. rewrite Hd. simpl.
  set (p := mkProject _ _ _ _ _ _ _ _ _ _).
  unfold projects_set, mbind, Eff_bind, bind.
  rewrite (doc_ref_ok _ _ _ (project_id_key _)).
  destruct (project_defined p); [|by eexists _; split].
  unfold sdk_call at 1. simpl. rewrite length_app. simpl.
  destruct (fault E (List.length (calls w) + 1)) as [m2|] eqn:Hf2; [by eexists _; split|].
  unfold users_update, mbind, Eff_bind, bind. rewrite (doc_ref_ok s key) by done.
  unfold sdk_call. simpl. rewrite !length_app. simpl.
  destruct (fault E (List.length (calls w) + 1 + 1)) as [m3|] eqn:Hf3; [by eexists _; split|].
  destruct Hnq. intros i Hi.
  destruct i as [|[|[|i]]]; [| | |lia].
  - by rewrite Nat.add_0_r.
  - exact Hf2.
  - by replace (List.length (calls w) + 2)%nat with (List.length (calls w) + 1 + 1)%nat by lia.
Qed.

(** C10, as stated, fails: for a stored user and calls that all succeed, a
    request without [type] (or without [name]) does not get its project
    stored with the absent value. The record would hold [undefined], which
    [set()] refuses: the answer is 500 and nothing is stored. *)
Lemma create_project_absent_type :
  let E := calm_env true (λ n, 1700000000000 + Z.of_nat n) in
  let d : Doc := {[ "totalProjects" := VNum 0; "projects" := VArr [] ]} in
  let w := mkWorld {[ "u1" := d ]} ∅ [] 0 [] in
  ¬ absent_fields_are_stored E {[ "userId" := VStr "u1"; "name" := VStr "Site" ]} w ∧
  ¬ absent_fields_are_stored E {[ "userId" := VStr "u1"; "type" := VStr "web" ]} w ∧
  ¬ absent_fields_are_stored E {[ "userId" := VStr "u1" ]} w.
Proof.
  intros E d w.
  split_and!; intros H; destruct H as (r & w' & Hrun & Hst & _);
    try (by exists "u1", "u1", d);
    try (intros i _; reflexivity);
    vm_compute in Hrun; inversion Hrun; subst r; vm_compute in Hst; discriminate.
Qed.

(** C10, amended. For a stored user, create-project does not look at
    [name] and [type] itself: the record holds whatever the request has
    for them, and [description] is replaced by the empty string when it is
    absent or falsy. When [name] and [type] are both present and the three
    calls succeed, the record is stored under its id and returned with
    status 200. When [name] or [type] is absent and the lookup succeeds,
    [set()] refuses the record: the answer is 500, the lookup is the only
    call and nothing is written. The only outcome other than 200 is 500,
    and then [name] or [type] is absent or one of the three calls failed. *)
Theorem create_project_name_type (E : Env) (body : gmap string Value) (w : World)
    (s key : string) (d : Doc) :
  names_user w (prop body "userId") s key d →
  let p := new_project E body w in
  p_name p = prop body "name" ∧
  p_type p = prop body "type" ∧
  p_description p
  = (if truthy (prop body "description") then prop body "description" else VStr "") ∧
  (is_defined (prop body "name") = true → is_defined (prop body "type") = true →
   quiet E w 3 →
   create_project E body w = (Ok (created_response p), after_create E body w key d) ∧
   projects (after_create E body w key d) !! p_id p = Some p) ∧
  (is_defined (prop body "name") = false ∨ is_defined (prop body "type") = false →
   fault E (List.length (calls w)) = None →
   ∃ w', create_project E body w = (Ok (failure 500 "Failed to create project"), w') ∧
         projects w' = projects w ∧ users w' = users w ∧
         calls w' = calls w ++ [UsersGet key]) ∧
  (∀ r w', create_project E body w = (Ok r, w') → status r ≠ 200 →
           r = failure 500 "Failed to create project" ∧
           (is_defined (prop body "name") = false ∨
            is_defined (prop body "type") = false ∨
            ∃ i, (i < 3)%nat ∧ is_Some (fault E (List.length (calls w) + i)))).
Proof.
  intros Hu. cbv zeta. split_and!; try reflexivity.
  - intros Hname Htype Hq. split; [by apply (create_project_run E body w s key d)|].
    unfold after_create. simpl. by rewrite lookup_insert_eq.
  - intros Hundef Hf. eexists. split; [by apply (create_project_undefined E body w s key d)|].
    by repeat split.
  - intros r w' Hrun Hst.
    destruct (is_defined (prop body "name")) eqn:Hname.
    2: { destruct (quiet_or_fault E w 1) as [Hq | (i & Hi & Hsome)].
         - rewrite (create_project_undefined E body w s key d Hu) in Hrun;
             [| by left | by apply (quiet_head E w 0)].
           inversion Hrun; subst. split; [done | by left].
         - destruct (create_project_fails_on_fault E body w s key d Hu) as (w2 & Hfail & _).
           { intros Hq. apply (quiet_not_fault E w 3 i Hq); [lia | done]. }
           rewrite Hfail in Hrun. inversion Hrun; subst. split; [done | by left]. }
    destruct (is_defined (prop body "type")) eqn:Htype.
    2: { destruct (quiet_or_fault E w 1) as [Hq | (i & Hi & Hsome)].
         - rewrite (create_project_undefined E body w s key d Hu) in Hrun;
             [| by right | by apply (quiet_head E w 0)].
           inversion Hrun; subst. split; [done | by right; left].
         - destruct (create_project_fails_on_fault E body w s key d Hu) as (w2 & Hfail & _).
           { intros Hq. apply (quiet_not_fault E w 3 i Hq); [lia | done]. }
           rewrite Hfail in Hrun. inversion Hrun; subst. split; [done | by right; left]. }
    destruct (quiet_or_fault E w 3) as [Hq | (i & Hi & Hsome)].
    + rewrite (create_project_run E body w s key d Hu Hname Htype Hq) in Hrun.
      inversion Hrun; subst. by destruct Hst.
    + destruct (create_project_fails_on_fault E body w s key d Hu) as (w2 & Hfail & _).
      { intros Hq. by apply (quiet_not_fault E w 3 i Hq Hi). }
      rewrite Hfail in Hrun. inversion Hrun; subst.
      split; [done | by right; right; exists i].
Qed.

Lemma create_project_name_type_witness :
  let E := calm_env true (λ n, 1700000000000 + Z.of_nat n) in
  let d : Doc := {[ "totalProjects" := VNum 0; "projects" := VArr [] ]} in
  let w := mkWorld {[ "u1" := d ]} ∅ [] 0 [] in
  let body : gmap string Value :=
    {[ "userId" := VStr "u1"; "name" := VNum 7; "type" := VNull ]} in
  let p := new_project E body w in
  (p_name p = VNum 7 ∧ p_type p = VNull ∧ p_description p = VStr "") ∧
  create_project E body w = (Ok (created_response p), after_create E body w "u1" d) ∧
  projects (after_create E body w "u1" d) !! "project_1700000000000" = Some p.
Proof.
  intros E d w body p.
  assert (names_user w (prop body "userId") "u1" "u1" d) as Hu.
  { split; [reflexivity | split; reflexivity]. }
  destruct (create_project_name_type E body w "u1" "u1" d Hu)
    as (Hn & Ht & Hd & Hrun & _).
  split; [split; [exact Hn | split; [exact Ht | exact Hd]] |].
  apply Hrun; [reflexivity | reflexivity |]. intros i _. reflexivity.
Defined.

(** ** Equality of values and [arrayUnion] *)

Lemma value_eqb_eq (a b : Value) : value_eqb a b = true ↔ a = b.
Proof.
  revert b. induction a as [| | x | x | x | l IH | fs IH] using Value_nested_ind;
    intros [| | y | y | y | l2 | fs2]; simpl; try (split; [discriminate | discriminate]);
    try (split; reflexivity).
  - rewrite Bool.eqb_true_iff. split; congruence.
  - rewrite Z.eqb_eq. split; congruence.
  - rewrite String.eqb_eq. split; congruence.
  - revert l2. induction IH as [| x l Hx _ IHl]; intros [| y l2];
      try (split; [discriminate | discriminate]); try (split; reflexivity).
    rewrite andb_true_iff, Hx, IHl. split; [intros [-> Heq]; congruence | ].
    intros Heq. inversion Heq; subst. done.
  - revert fs2. induction IH as [| [k x] fs Hx _ IHfs]; intros [| [k2 y] fs2];
      try (split; [discriminate | discriminate]); try (split; reflexivity).
    simpl in Hx. rewrite !andb_true_iff, String.eqb_eq, Hx, IHfs.
    split; [intros [[-> ->] Heq]; congruence | ].
    intros Heq. inversion Heq; subst. done.
Qed.

Lemma existsb_value_eqb (v : Value) (l : list Value) :
  existsb (value_eqb v) l = true ↔ v ∈ l.
Proof.
  rewrite existsb_exists. split.
  - intros (x & Hin & Heq). apply value_eqb_eq in Heq as ->. by apply list_elem_of_In.
  - intros Hin. exists v. split; [by apply list_elem_of_In | by apply value_eqb_eq].
Qed.

Lemma array_union_fresh (v : Value) (l : list Value) :
  v ∉ l → array_union l [v] = l ++ [v].
Proof.
  intros Hv. unfold array_union. simpl.
  destruct (existsb (value_eqb v) l) eqn:Hex; [|done].
  by apply existsb_value_eqb in Hex.
Qed.

Lemma array_union_known (v : Value) (l : list Value) :
  v ∈ l → array_union l [v] = l.
Proof.
  intros Hv. unfold array_union. simpl.
  apply existsb_value_eqb in Hv. by rewrite Hv.
Qed.

(** The update of create-project, field by field. *)
Lemma doc_update_count_project (id : string) (d : Doc) :
  doc_update (count_project id) d
  = <["totalProjects" := apply_op (Increment 1) (prop d "totalProjects")]>
      (<["projects" := apply_op (ArrayUnion [VStr id]) (prop d "projects")]> d).
Proof.
  unfold doc_update, count_project.
  assert (∀ (f : string → FieldOp → Doc → Doc) x y,
            map_fold f d (list_to_map [("totalProjects", x); ("projects", y)]
                          : gmap string FieldOp)
            = f "totalProjects" x (f "projects" y d)) as -> by reflexivity.
  unfold doc_update_field. simpl. unfold prop at 1.
  by rewrite lookup_insert_ne.
Qed.

Lemma count_project_lookup (id : string) (d : Doc) (n : Z) (l : list Value) :
  d !! "totalProjects" = Some (VNum n) →
  d !! "projects" = Some (VArr l) →
  let d' := doc_update (count_project id) d in
  d' !! "totalProjects" = Some (VNum (n + 1)) ∧
  d' !! "projects" = Some (VArr (array_union l [VStr id])) ∧
  (∀ k, k ≠ "totalProjects" → k ≠ "projects" → d' !! k = d !! k).
Proof.
  intros Hn Hl. cbv zeta. rewrite doc_update_count_project.
  rewrite (prop_lookup_Some _ _ _ Hn), (prop_lookup_Some _ _ _ Hl). simpl.
  split_and!.
  - by rewrite lookup_insert_eq.
  - rewrite lookup_insert_ne by done. by rewrite lookup_insert_eq.
  - intros k H1 H2. by rewrite !lookup_insert_ne.
Qed.

(** ** Create project: the counter and the list of the user *)

(** X20. What a successful create-project does when the id made from the
    clock is not yet in the list of the user (the request has a [name] and
    a [type], the counter is in the range of exact integers): the counter
    grows by one, the id is appended to the list, every other field of the
    user and every other user document are as before, and the project is
    stored with the [userId] of the request. *)
Lemma create_project_fresh_id E body w s key d n l :
  names_user w (prop body "userId") s key d →
  is_defined (prop body "name") = true →
  is_defined (prop body "type") = true →
  quiet E w 3 →
  d !! "totalProjects" = Some (VNum n) →
  counter_range n →
  d !! "projects" = Some (VArr l) →
  VStr (p_id (new_project E body w)) ∉ l →
  ∃ w' d' p,
    create_project E body w = (Ok (created_response p), w') ∧
    users w' !! key = Some d' ∧
    d' !! "totalProjects" = Some (VNum (n + 1)) ∧
    d' !! "projects" = Some (VArr (l ++ [VStr (p_id p)])) ∧
    (∀ k, k ≠ "totalProjects" → k ≠ "projects" → d' !! k = d !! k) ∧
    (∀ u, u ≠ key → users w' !! u = users w !! u) ∧
    projects w' !! p_id p = Some p ∧
    p_userId p = prop body "userId".
Proof.
  intros Hu Hname Htype Hq Hn _ Hl Hfresh.
  destruct (count_project_lookup (p_id (new_project E body w)) d n l Hn Hl)
    as (Hn' & Hl' & Hother).
  rewrite array_union_fresh in Hl' by exact Hfresh.
  exists (after_create E body w key d),
         (doc_update (count_project (p_id (new_project E body w))) d),
         (new_project E body w).
  split; [exact (create_project_run E body w s key d Hu Hname Htype Hq)|].
  split; [apply lookup_insert_eq|].
  split; [exact Hn'|]. split; [exact Hl'|]. split; [exact Hother|].
  split; [intros u Hne; apply lookup_insert_ne; congruence|].
  split; [apply lookup_insert_eq | reflexivity].
Qed.

(** C1 does not hold when the id made from the clock is already in the
    list of the user, as for a second request in the same millisecond: the
    request (with a [name] and a [type]) succeeds and the counter grows by
    one, but [arrayUnion] adds nothing, so the list is the same as
    before. *)
Theorem create_project_repeated_id (E : Env) (body : gmap string Value) (w : World)
    (s key : string) (d : Doc) (n : Z) (l : list Value) :
  names_user w (prop body "userId") s key d →
  is_defined (prop body "name") = true →
  is_defined (prop body "type") = true →
  quiet E w 3 →
  d !! "totalProjects" = Some (VNum n) →
  counter_range n →
  d !! "projects" = Some (VArr l) →
  VStr (p_id (new_project E body w)) ∈ l →
  ∃ r w' d',
    create_project E body w = (Ok r, w') ∧ status r = 200 ∧
    users w' !! key = Some d' ∧
    d' !! "totalProjects" = Some (VNum (n + 1)) ∧
    d' !! "projects" = Some (VArr l).
Proof.
  intros Hu Hname Htype Hq Hn _ Hl Hknown.
  destruct (count_project_lookup (p_id (new_project E body w)) d n l Hn Hl)
    as (Hn' & Hl' & _).
  rewrite array_union_known in Hl' by exact Hknown.
  exists (created_response (new_project E body w)), (after_create E body w key d),
         (doc_update (count_project (p_id (new_project E body w))) d).
  split; [exact (create_project_run E body w s key d Hu Hname Htype Hq)|].
  split; [reflexivity|].
  split; [apply lookup_insert_eq|].
  split; [exact Hn' | exact Hl'].
Qed.

Lemma create_project_same_millisecond :
  let E := calm_env true (λ _, 1700000000000) in
  let body : gmap string Value :=
    {[ "userId" := VStr "u1"; "name" := VStr "Site"; "type" := VStr "web" ]} in
  let d0 : Doc := {[ "totalProjects" := VNum 0; "projects" := VArr [] ]} in
  let w0 := mkWorld {[ "u1" := d0 ]} ∅ [] 0 [] in
  let w1 := (create_project E body w0).2 in
  let d1 : Doc := {[ "totalProjects" := VNum 1;
                     "projects" := VArr [VStr "project_1700000000000"] ]} in
  users w1 !! "u1" = Some d1 ∧
  ∃ r w2 d2,
    create_project E body w1 = (Ok r, w2) ∧ status r = 200 ∧
    users w2 !! "u1" = Some d2 ∧
    d2 !! "totalProjects" = Some (VNum 2) ∧
    d2 !! "projects" = Some (VArr [VStr "project_1700000000000"]).
Proof.
  intros E body d0 w0 w1 d1.
  assert (users w1 !! "u1" = Some d1) as Hd1 by (vm_compute; reflexivity).
  split; [exact Hd1|].
  apply (create_project_repeated_id E body w1 "u1" "u1" d1 1
           [VStr "project_1700000000000"]).
  - split; [reflexivity | split; [reflexivity | exact Hd1]].
  - reflexivity.
  - reflexivity.
  - intros i _. reflexivity.
  - reflexivity.
  - unfold counter_range. lia.
  - reflexivity.
  - vm_compute. apply list_elem_of_here.
Defined.

(** C2 does not hold on the code. A user is registered and then creates two
    projects, each request with a [name] and a [type], while the clock
    reads the same millisecond. The three requests are answered with
    status 200. The record is consistent after the registration and after
    the first project; after the second it has counter 2 and still one id:
    both projects got the id ["project_1700000000000"], and there is one
    project document. *)
Theorem counter_diverges_from_list :
  let E := calm_env true (λ _, 1700000000000) in
  let account : gmap string Value :=
    {[ "email" := VStr "al@b.c"; "password" := VStr "secret"; "name" := VStr "Al" ]} in
  let body : gmap string Value :=
    {[ "userId" := VStr "uid0"; "name" := VStr "Site"; "type" := VStr "web" ]} in
  let run0 := register E account empty_world in
  let run1 := create_project E body run0.2 in
  let run2 := create_project E body run1.2 in
  (status_of run0 = Some 200 ∧ status_of run1 = Some 200 ∧ status_of run2 = Some 200) ∧
  consistent <$> user_after run0 "uid0" = Some true ∧
  consistent <$> user_after run1 "uid0" = Some true ∧
  consistent <$> user_after run2 "uid0" = Some false ∧
  user_after run2 "uid0" ≫= (.!! "totalProjects") = Some (VNum 2) ∧
  user_after run2 "uid0" ≫= (.!! "projects")
  = Some (VArr [VStr "project_1700000000000"]) ∧
  dom (projects run2.2) = {[ "project_1700000000000" ]}.
Proof.
  cbv zeta. split_and!; vm_compute; reflexivity.
Qed.

(** ** List the projects of a user *)

Lemma compare_gt_trans (a b c : string) :
  String.compare a b = Gt → String.compare b c = Gt → String.compare a c = Gt.
Proof.
  intros Hab Hbc.
  rewrite String.compare_antisym in Hab, Hbc |- *.
  destruct (String.compare b a) eqn:Hba; try discriminate.
  destruct (String.compare c b) eqn:Hcb; try discriminate.
  apply OrderedTypeEx.String_as_OT.cmp_lt in Hba, Hcb.
  pose proof (OrderedTypeEx.String_as_OT.lt_trans _ _ _ Hcb Hba) as Hca.
  apply OrderedTypeEx.String_as_OT.cmp_lt in Hca.
  unfold OrderedTypeEx.String_as_OT.cmp in Hca. by rewrite Hca.
Qed.

Lemma compare_refl (a : string) : String.compare a a = Eq.
Proof. by apply OrderedTypeEx.String_as_OT.cmp_eq. Qed.

Lemma leb_trans (a b c : string) :
  String.leb a b = true → String.leb b c = true → String.leb a c = true.
Proof.
  unfold String.leb. intros Hab Hbc.
  destruct (String.compare a b) eqn:Eab; try discriminate.
  - apply String.compare_eq_iff in Eab as ->. exact Hbc.
  - destruct (String.compare b c) eqn:Ebc; try discriminate.
    + apply String.compare_eq_iff in Ebc as <-. by rewrite Eab.
    + apply OrderedTypeEx.String_as_OT.cmp_lt in Eab, Ebc.
      pose proof (OrderedTypeEx.String_as_OT.lt_trans _ _ _ Eab Ebc) as Hac.
      apply OrderedTypeEx.String_as_OT.cmp_lt in Hac.
      unfold OrderedTypeEx.String_as_OT.cmp in Hac. by rewrite Hac.
Qed.

#[local] Instance desc_before_total : Total (λ a b, Is_true (desc_before a b)).
Proof.
  intros a b. unfold desc_before.
  rewrite (String.compare_antisym (p_createdAt b.2)).
  destruct (String.compare (p_createdAt a.2) (p_createdAt b.2)); simpl.
  - destruct (String.leb_total a.1 b.1) as [H | H]; rewrite H; auto.
  - by right.
  - by left.
Qed.

#[local] Instance desc_before_trans : Transitive (λ a b, Is_true (desc_before a b)).
Proof.
  intros a b c. unfold desc_before.
  destruct (String.compare (p_createdAt a.2) (p_createdAt b.2)) eqn:Hab;
    destruct (String.compare (p_createdAt b.2) (p_createdAt c.2)) eqn:Hbc;
    try (intros [] _; fail); try (intros _ []; fail).
  - apply String.compare_eq_iff in Hab, Hbc. rewrite Hab, Hbc, compare_refl.
    intros H1 H2. apply Is_true_true. apply Is_true_true in H1, H2.
    by apply (leb_trans _ b.1).
  - apply String.compare_eq_iff in Hab. rewrite Hab, Hbc. done.
  - apply String.compare_eq_iff in Hbc. rewrite <- Hbc, Hab. done.
  - by rewrite (compare_gt_trans _ _ _ Hab Hbc).
Qed.

Lemma desc_before_not_older (a b : string * Project) :
  Is_true (desc_before a b) → not_older a.2 b.2.
Proof.
  unfold desc_before, not_older, String.leb.
  rewrite (String.compare_antisym (p_createdAt b.2)).
  by destruct (String.compare (p_createdAt a.2) (p_createdAt b.2)).
Qed.

Lemma projects_snapshot_perm userId ps :
  projects_snapshot userId ps
  ≡ₚ List.filter (λ kp, value_eqb (p_userId kp.2) (VStr userId)) (map_to_list ps).
Proof. apply merge_sort_Permutation. Qed.

Lemma elem_of_projects_snapshot userId ps k p :
  (k, p) ∈ projects_snapshot userId ps ↔ ps !! k = Some p ∧ owned_by userId p.
Proof.
  rewrite projects_snapshot_perm, list_elem_of_In, filter_In, <- list_elem_of_In.
  rewrite elem_of_map_to_list. simpl. by rewrite value_eqb_eq.
Qed.

Lemma NoDup_projects_snapshot userId ps : NoDup (projects_snapshot userId ps).*1.
Proof.
  rewrite projects_snapshot_perm.
  eapply sublist_NoDup; [apply (NoDup_fst_map_to_list ps)|].
  apply fmap_sublist. induction (map_to_list ps) as [|x l IH]; simpl; [constructor|].
  destruct (value_eqb _ _); by constructor.
Qed.

(** C3. List-user-projects answers 200 with the data of the documents of
    a snapshot [docs] and with their number as [count]. The snapshot has
    exactly the project documents whose [userId] is the given one, each
    once; along the list the creation timestamps never increase. The one
    SDK call is the query on [projects]; the [users] collection is not
    read, and the answer is the same whatever it holds. *)
Theorem list_projects_sorted (E : Env) (userId : string) (w : World) :
  fault E (List.length (calls w)) = None →
  ∃ docs : list (string * Project),
    list_projects E userId w = (Ok (listing docs.*2), log (ProjectsQuery userId) w) ∧
    (∀ k p, (k, p) ∈ docs ↔ projects w !! k = Some p ∧ owned_by userId p) ∧
    NoDup docs.*1 ∧
    StronglySorted not_older docs.*2 ∧
    (∀ us, (list_projects E userId (set_users (λ _, us) w)).1
           = (list_projects E userId w).1).
Proof.
  intros Hf. exists (projects_snapshot userId (projects w)). split_and!.
  - unfold list_projects, try_catch, mbind, Eff_bind, bind, projects_query.
    rewrite sdk_call_ok by exact Hf. reflexivity.
  - intros k p. apply elem_of_projects_snapshot.
  - apply NoDup_projects_snapshot.
  - apply (StronglySorted_fmap snd (λ a b, Is_true (desc_before a b))).
    + apply desc_before_not_older.
    + apply StronglySorted_merge_sort; apply _.
  - intros us.
    unfold list_projects, try_catch, mbind, Eff_bind, bind, projects_query, sdk_call.
    simpl. by rewrite Hf.
Qed.

Lemma list_projects_sorted_witness :
  let E := calm_env true (λ _, 0) in
  let proj (id owner created : string) :=
    mkProject id (VStr owner) (VStr "Site") VUndef (VStr "") created created "active" [] [] in
  let w := mkWorld ∅
             {[ "p1" := proj "p1" "u1" "2023-11-14T22:13:20.000Z";
                "p2" := proj "p2" "u2" "2023-11-15T08:00:00.000Z";
                "p3" := proj "p3" "u1" "2024-01-01T00:00:00.000Z" ]} [] 0 [] in
  projects_of "u1" (projects w)
  = [proj "p3" "u1" "2024-01-01T00:00:00.000Z";
     proj "p1" "u1" "2023-11-14T22:13:20.000Z"] ∧
  ∃ docs : list (string * Project),
    list_projects E "u1" w = (Ok (listing docs.*2), log (ProjectsQuery "u1") w) ∧
    (∀ k p, (k, p) ∈ docs ↔ projects w !! k = Some p ∧ owned_by "u1" p) ∧
    NoDup docs.*1 ∧
    StronglySorted not_older docs.*2 ∧
    (∀ us, (list_projects E "u1" (set_users (λ _, us) w)).1
           = (list_projects E "u1" w).1).
Proof.
  intros E proj w. split; [vm_compute; reflexivity|].
  apply (list_projects_sorted E "u1" w). reflexivity.
Defined.

(** ** Update user *)

Lemma field_path_plain (key : string) :
  plain_key key = true → field_path key = (key, []).
Proof.
  unfold plain_key. induction key as [|c key IH]; [done|].
  simpl. destruct (field_path key) as [seg rest].
  destruct (Ascii.eqb c "."); simpl; [done|].
  intros H. specialize (IH H). by inversion IH.
Qed.

(** An update leaves alone every top-level field that none of its keys
    names. *)
Lemma doc_update_frame (upd : gmap string FieldOp) (d : Doc) (f : string) :
  (∀ key, is_Some (upd !! key) → top_field key ≠ f) →
  doc_update upd d !! f = d !! f.
Proof.
  unfold doc_update.
  apply (map_fold_weak_ind
           (λ r m, (∀ key, is_Some (m !! key) → top_field key ≠ f) → r !! f = d !! f)).
  - done.
  - intros i x m r Hi IH H. unfold doc_update_field.
    pose proof (H i) as Htop. unfold top_field in Htop.
    destruct (field_path i) as [top rest]. simpl in Htop.
    rewrite lookup_insert_ne.
    + apply IH. intros key Hk. apply H.
      destruct (decide (i = key)) as [-> | Hne].
      * rewrite Hi in Hk. by destruct Hk.
      * by rewrite lookup_insert_ne.
    + apply Htop. rewrite lookup_insert_eq. by eexists.
Qed.

(** An update whose keys are plain field names replaces those fields and
    keeps the others. *)
Lemma doc_update_plain (m : gmap string Value) (d : Doc) :
  (∀ key, is_Some (m !! key) → plain_key key = true) →
  doc_update (SetTo <$> m) d = m ∪ d.
Proof.
  unfold doc_update. rewrite map_fold_fmap.
  apply (map_fold_weak_ind
           (λ r m, (∀ key, is_Some (m !! key) → plain_key key = true) → r = m ∪ d)).
  - intros _. by rewrite (left_id_L ∅ (∪)).
  - intros i x m' r Hi IH H. simpl. unfold doc_update_field.
    rewrite field_path_plain.
    + simpl. rewrite IH.
      * by rewrite insert_union_l.
      * intros key Hk. apply H.
        destruct (decide (i = key)) as [-> | Hne].
        -- rewrite Hi in Hk. by destruct Hk.
        -- by rewrite lookup_insert_ne.
    + apply H. rewrite lookup_insert_eq. by eexists.
Qed.

Lemma sanitized_lookup (body : gmap string Value) (t : Z) :
  let upd := sanitized body t in
  (∀ k, k ∈ protected_fields → upd !! k = None) ∧
  upd !! "updatedAt" = Some (VStr (toISOString t)) ∧
  (∀ k, k ∉ protected_fields → k ≠ "updatedAt" → upd !! k = body !! k).
Proof.
  cbv zeta. unfold sanitized, protected_fields. split_and!.
  - intros k Hk.
    repeat (apply elem_of_cons in Hk as [-> | Hk];
            [rewrite lookup_insert_ne by done;
             rewrite ?lookup_delete_eq, ?(lookup_delete_ne _ "createdAt"),
               ?lookup_delete_eq, ?(lookup_delete_ne _ "email"), ?lookup_delete_eq by done;
             done|]).
    by apply elem_of_nil in Hk.
  - by rewrite lookup_insert_eq.
  - intros k Hk Hne.
    rewrite lookup_insert_ne by done.
    rewrite !lookup_delete_ne; [done | | |];
      intros <-; apply Hk; repeat constructor.
Qed.

Lemma alist_get_set_eq (k : string) (v : Value) (fs : list (string * Value)) :
  alist_get k (alist_set k v fs) = v.
Proof.
  induction fs as [|[k' v'] fs IH]; simpl.
  - by rewrite String.eqb_refl.
  - destruct (String.eqb k k') eqn:Hk; simpl; rewrite Hk; [done | exact IH].
Qed.

Lemma alist_get_set_ne (k k' : string) (v : Value) (fs : list (string * Value)) :
  k ≠ k' → alist_get k' (alist_set k v fs) = alist_get k' fs.
Proof.
  intros Hne. induction fs as [|[k2 v2] fs IH]; simpl.
  - destruct (String.eqb k' k) eqn:H; [apply String.eqb_eq in H; congruence | done].
  - destruct (String.eqb k k2) eqn:Hk; simpl.
    + apply String.eqb_eq in Hk as <-.
      destruct (String.eqb k' k) eqn:H; [apply String.eqb_eq in H; congruence | done].
    + destruct (String.eqb k' k2); [done | exact IH].
Qed.

Lemma get_in_undef (path : list string) : get_in path VUndef = VUndef.
Proof. by destruct path. Qed.

Lemma apart_cons (k : string) (p q : list string) : apart (k :: p) (k :: q) → apart p q.
Proof. intros [H1 H2]. split; intros H; [apply H1 | apply H2]; by apply prefix_cons. Qed.

Lemma apart_cons_ne (a b : string) (p q : list string) : a ≠ b → apart (a :: p) (b :: q).
Proof.
  intros Hne. split; intros [k Hk]; simpl in Hk; inversion Hk; congruence.
Qed.

Lemma apart_cons_eq (k : string) (p q : list string) : apart p q → apart (k :: p) (k :: q).
Proof.
  intros [H1 H2]. split; intros H; [apply H1 | apply H2];
    by apply prefix_cons_inv_2 in H.
Qed.

(** Writing at a path and reading the same path gives what was written. *)
Lemma get_update_in_same (path : list string) (v old : Value) :
  get_in path (update_in path (SetTo v) old) = v.
Proof.
  revert old. induction path as [|k rest IH]; intros old; [done|].
  simpl. by rewrite alist_get_set_eq.
Qed.

(** Writing at a path does not change what is read at a path apart from
    it. *)
Lemma get_update_in_apart (p q : list string) (op : FieldOp) (old : Value) :
  apart p q → get_in q (update_in p op old) = get_in q old.
Proof.
  revert q old. induction p as [|k rest IH]; intros q old Hap.
  { destruct Hap as [H _]. destruct H. apply prefix_nil. }
  destruct q as [|k' rest'].
  { destruct Hap as [_ H]. destruct H. apply prefix_nil. }
  simpl. destruct (decide (k = k')) as [<- | Hne].
  - rewrite alist_get_set_eq. rewrite IH by by apply (apart_cons k).
    destruct old; try done; simpl; by rewrite get_in_undef.
  - rewrite alist_get_set_ne by done.
    destruct old; try done; simpl; by rewrite get_in_undef.
Qed.

Lemma doc_get_update_same (key : string) (v : Value) (d : Doc) :
  doc_get (key_path key) (doc_update_field key (SetTo v) d) = v.
Proof.
  unfold doc_update_field, key_path. destruct (field_path key) as [top rest]. simpl.
  unfold prop at 1. rewrite lookup_insert_eq. simpl. apply get_update_in_same.
Qed.

Lemma doc_get_update_apart (key : string) (op : FieldOp) (d : Doc) (q : list string) :
  apart (key_path key) q →
  doc_get q (doc_update_field key op d) = doc_get q d.
Proof.
  unfold doc_update_field, key_path. destruct (field_path key) as [top rest]. simpl.
  intros Hap. destruct q as [|top' rest']; [done|]. simpl.
  destruct (decide (top = top')) as [<- | Hne].
  - unfold prop at 1. rewrite lookup_insert_eq. simpl.
    apply get_update_in_apart. by apply (apart_cons top).
  - unfold prop at 1. by rewrite lookup_insert_ne.
Qed.

(** An update whose keys do not overlap writes every value at the path of
    its key and leaves alone what is apart from all its keys. *)
Lemma doc_update_paths (upd : gmap string Value) (d : Doc) :
  conflict_free upd →
  (∀ key v, upd !! key = Some v → doc_get (key_path key) (doc_update (SetTo <$> upd) d) = v) ∧
  (∀ q, (∀ key, is_Some (upd !! key) → apart (key_path key) q) →
        doc_get q (doc_update (SetTo <$> upd) d) = doc_get q d).
Proof.
  unfold doc_update. rewrite map_fold_fmap.
  apply (map_fold_weak_ind
           (λ r m, conflict_free m →
                   (∀ key v, m !! key = Some v → doc_get (key_path key) r = v) ∧
                   (∀ q, (∀ key, is_Some (m !! key) → apart (key_path key) q) →
                         doc_get q r = doc_get q d))).
  - intros _. split; [intros key v H; by rewrite lookup_empty in H | done].
  - intros i x m r Hi IH Hcf. unfold compose.
    assert (conflict_free m) as Hcf'.
    { intros k1 k2 H1 H2 Hne. apply Hcf; [| |done].
      - destruct (decide (i = k1)) as [-> | ?]; [rewrite Hi in H1; by destruct H1|].
        by rewrite lookup_insert_ne.
      - destruct (decide (i = k2)) as [-> | ?]; [rewrite Hi in H2; by destruct H2|].
        by rewrite lookup_insert_ne. }
    destruct (IH Hcf') as [IHset IHframe]. split.
    + intros key v Hk. destruct (decide (i = key)) as [<- | Hne].
      * rewrite lookup_insert_eq in Hk. inversion Hk; subst. apply doc_get_update_same.
      * rewrite lookup_insert_ne in Hk by done.
        rewrite doc_get_update_apart; [by apply IHset|].
        apply Hcf; [rewrite lookup_insert_eq; by eexists | | done].
        rewrite lookup_insert_ne by done. by eexists.
    + intros q Hq. rewrite doc_get_update_apart.
      * apply IHframe. intros key Hk. apply Hq.
        destruct (decide (i = key)) as [-> | ?]; [rewrite Hi in Hk; by destruct Hk|].
        by rewrite lookup_insert_ne.
      * apply Hq. rewrite lookup_insert_eq. by eexists.
Qed.

(** C4. Whatever the request body holds, the map that update-user hands
    to the store has no [uid], [email] or [createdAt], has [updatedAt] set
    to the time of the request, and has every other field as in the body.
    When the id is the path of a document, that map is what the [update]
    call is made with; otherwise [doc()] throws, no call is made and the
    answer is 500. For a stored user, when both calls succeed, the answer
    is 200 with the record read back after the update, which is the record
    that the store now holds: every top-level field that no key of the map
    names is as before; when the keys are plain field names the record is
    the old one overridden by the map; and when no key names a field inside
    the field of another key (keys may be dotted paths), every value of the
    map is found in the record at the path of its key and everything apart
    from those paths is as before. Other users are untouched. *)
Theorem update_user_merge (E : Env) (userId : string) (body : gmap string Value)
    (w : World) :
  let upd := sanitized body (clock E (ticks w)) in
  ((∀ k, k ∈ protected_fields → upd !! k = None) ∧
   upd !! "updatedAt" = Some (VStr (toISOString (clock E (ticks w)))) ∧
   (∀ k, k ∉ protected_fields → k ≠ "updatedAt" → upd !! k = body !! k)) ∧
  (∀ key, doc_key userId = Some key →
     ∃ r w' cs,
       update_user E userId body w = (Ok r, w') ∧
       calls w' = calls w ++ UsersUpdate key (SetTo <$> upd) :: cs) ∧
  (doc_key userId = None →
     update_user E userId body w
     = (Ok (failure 500 "Failed to update profile"), tick w)) ∧
  (∀ key d, doc_key userId = Some key → users w !! key = Some d → quiet E w 2 →
     ∃ d' w',
       update_user E userId body w = (Ok (updated_response d'), w') ∧
       users w' !! key = Some d' ∧
       (∀ u, u ≠ key → users w' !! u = users w !! u) ∧
       calls w' = calls w ++ [UsersUpdate key (SetTo <$> upd); UsersGet key] ∧
       (∀ f, (∀ k, is_Some (upd !! k) → top_field k ≠ f) → d' !! f = d !! f) ∧
       ((∀ k, is_Some (upd !! k) → plain_key k = true) → d' = upd ∪ d) ∧
       (conflict_free upd →
        (∀ k v, upd !! k = Some v → doc_get (key_path k) d' = v) ∧
        (∀ q, (∀ k, is_Some (upd !! k) → apart (key_path k) q) →
              doc_get q d' = doc_get q d))).
Proof.
  cbv zeta.
  set (upd := sanitized body (clock E (ticks w))).
  split; [exact (sanitized_lookup body (clock E (ticks w)))|].
  split; [|split].
  - intros key Hid.
    unfold update_user, try_catch, mbind, Eff_bind, bind, date_now, users_update,
      users_get, mbind, Eff_bind, bind.
    rewrite (doc_ref_ok userId key) by done. fold upd.
    unfold sdk_call at 1. simpl.
    destruct (fault E (List.length (calls w))) as [m1|]; [by eexists _, _, []|].
    destruct (users w !! key) as [d|]; [|by eexists _, _, []].
    unfold doc_ref. rewrite Hid. unfold sdk_call. simpl.
    destruct (fault E _) as [m2|]; eexists _, _, [UsersGet key];
      (split; [reflexivity|]); simpl; by rewrite <- app_assoc.
  - intros Hid.
    unfold update_user, try_catch, mbind, Eff_bind, bind, date_now, users_update,
      mbind, Eff_bind, bind, doc_ref.
    by rewrite Hid.
  - intros key d Hid Hd Hq.
    pose proof (quiet_head E w 1 Hq) as Hf1.
    exists (doc_update (SetTo <$> upd) d).
    unfold update_user, try_catch, mbind, Eff_bind, bind, date_now.
    fold upd.
    rewrite (users_update_ok _ userId key _ d) by done.
    rewrite (users_get_ok _ userId key);
      [| done | exact (quiet_head E _ 0 (quiet_log E (tick w) 1 _ Hq)) ].
    simpl. rewrite lookup_insert_eq. simpl.
    eexists. split; [reflexivity|]. simpl.
    split; [by rewrite lookup_insert_eq|].
    split; [intros u Hne; by rewrite lookup_insert_ne|].
    split; [by rewrite <- app_assoc|].
    split; [|split].
    + intros f Hf. apply doc_update_frame. intros k Hk. apply Hf.
      rewrite lookup_fmap in Hk. by apply fmap_is_Some in Hk.
    + intros Hplain. by apply doc_update_plain.
    + intros Hcf. by apply doc_update_paths.
Qed.

Lemma lookup_triple_inv (a b c key : string) (x y z : Value) :
  is_Some (({[ a := x; b := y; c := z ]} : gmap string Value) !! key) →
  key = a ∨ key = b ∨ key = c.
Proof.
  intros [v Hk].
  destruct (decide (a = key)) as [<- | Ha]; [by left|].
  destruct (decide (b = key)) as [<- | Hb]; [by right; left|].
  destruct (decide (c = key)) as [<- | Hc]; [by right; right|].
  rewrite lookup_insert_ne in Hk by exact Ha.
  rewrite lookup_insert_ne in Hk by exact Hb.
  rewrite lookup_singleton_ne in Hk by exact Hc. discriminate.
Qed.

Lemma update_user_merge_witness :
  let E := calm_env true (λ _, 1700000000000) in
  let d : Doc := {[ "uid" := VStr "u1"; "email" := VStr "al@b.c"; "name" := VStr "Al";
                    "totalProjects" := VNum 3;
                    "settings" := VObj [("theme", VStr "light");
                                        ("notifications", VBool true)] ]} in
  let w := mkWorld {[ "u1" := d ]} ∅ [] 0 [] in
  let body : gmap string Value :=
    {[ "uid" := VStr "u2"; "email" := VStr "eve@x.y"; "name" := VStr "Bob";
       "settings.theme" := VStr "dark" ]} in
  let upd : gmap string Value :=
    {[ "name" := VStr "Bob"; "settings.theme" := VStr "dark";
       "updatedAt" := VStr "2023-11-14T22:13:20.000Z" ]} in
  sanitized body 1700000000000 = upd ∧
  ∃ d' w',
    update_user E "u1" body w = (Ok (updated_response d'), w') ∧
    users w' !! "u1" = Some d' ∧
    d' !! "uid" = Some (VStr "u1") ∧
    d' !! "email" = Some (VStr "al@b.c") ∧
    d' !! "totalProjects" = Some (VNum 3) ∧
    doc_get ["name"] d' = VStr "Bob" ∧
    doc_get ["settings"; "theme"] d' = VStr "dark" ∧
    doc_get ["settings"; "notifications"] d' = VBool true.
Proof.
  intros E d w body upd.
  assert (sanitized body 1700000000000 = upd) as Hupd by (vm_compute; reflexivity).
  split; [exact Hupd|].
  destruct (update_user_merge E "u1" body w) as (_ & _ & _ & Hrun).
  destruct (Hrun "u1" d) as (d' & w' & Hr & Hu & _ & _ & Hframe & _ & Hpaths).
  { reflexivity. }
  { reflexivity. }
  { intros i _. reflexivity. }
  change (sanitized body (clock E (ticks w))) with (sanitized body 1700000000000)
    in Hframe, Hpaths.
  rewrite Hupd in Hframe, Hpaths.
  assert (key_path "name" = ["name"]) as Hp1 by reflexivity.
  assert (key_path "settings.theme" = ["settings"; "theme"]) as Hp2 by reflexivity.
  assert (key_path "updatedAt" = ["updatedAt"]) as Hp3 by reflexivity.
  assert (∀ f, f ≠ "name" → f ≠ "settings" → f ≠ "updatedAt" → d' !! f = d !! f)
    as Hkeep.
  { intros f H1 H2 H3. apply Hframe. intros key Hk.
    destruct (lookup_triple_inv _ _ _ _ _ _ _ Hk) as [-> | [-> | ->]]; intros <-;
      [apply H1 | apply H2 | apply H3]; reflexivity. }
  destruct Hpaths as [Hset Hapart].
  { intros k1 k2 H1 H2 Hne.
    destruct (lookup_triple_inv _ _ _ _ _ _ _ H1) as [-> | [-> | ->]];
      destruct (lookup_triple_inv _ _ _ _ _ _ _ H2) as [-> | [-> | ->]];
      try (exfalso; apply Hne; reflexivity); rewrite ?Hp1, ?Hp2, ?Hp3;
      apply apart_cons_ne; discriminate. }
  exists d', w'. split; [exact Hr|]. split; [exact Hu|].
  split; [rewrite Hkeep; [reflexivity | discriminate | discriminate | discriminate]|].
  split; [rewrite Hkeep; [reflexivity | discriminate | discriminate | discriminate]|].
  split; [rewrite Hkeep; [reflexivity | discriminate | discriminate | discriminate]|].
  split; [exact (Hset "name" (VStr "Bob") eq_refl)|].
  split; [exact (Hset "settings.theme" (VStr "dark") eq_refl)|].
  rewrite Hapart; [reflexivity|].
  intros key Hk.
  destruct (lookup_triple_inv _ _ _ _ _ _ _ Hk) as [-> | [-> | ->]];
    rewrite ?Hp1, ?Hp2, ?Hp3.
  - apply apart_cons_ne; discriminate.
  - apply apart_cons_eq. apply apart_cons_ne; discriminate.
  - apply apart_cons_ne; discriminate.
Defined.

Lemma lookup_pair_inv (a b key : string) (x y : Value) :
  is_Some (({[ a := x; b := y ]} : gmap string Value) !! key) → key = a ∨ key = b.
Proof.
  intros [v Hk].
  destruct (decide (a = key)) as [<- | Ha]; [by left|].
  destruct (decide (b = key)) as [<- | Hb]; [by right|].
  rewrite lookup_insert_ne in Hk by exact Ha.
  rewrite lookup_singleton_ne in Hk by exact Hb. discriminate.
Qed.

(** ** The counter and the list when project ids do not repeat *)

Lemma consistent_inv (d : Doc) :
  consistent d = true →
  ∃ l, d !! "totalProjects" = Some (VNum (Z.of_nat (List.length l))) ∧
       d !! "projects" = Some (VArr l).
Proof.
  unfold consistent. intros H.
  destruct (d !! "totalProjects") as [[| | | n | | |]|]; try discriminate.
  destruct (d !! "projects") as [[| | | | | l |]|]; try discriminate.
  apply Z.eqb_eq in H as ->. by exists l.
Qed.

(** Registration with the store available writes a consistent record:
    counter 0 and an empty list. *)
Lemma register_consistent E body w key :
  firebaseInitialized E = true →
  truthy (prop body "email") = true →
  truthy (prop body "password") = true →
  truthy (prop body "name") = true →
  email_taken E w (prop body "email") = false →
  doc_key (new_uid E (List.length (accounts w))) = Some key →
  quiet E w 3 →
  ∃ r w' d,
    register E body w = (Ok r, w') ∧ status r = 200 ∧
    users w' !! key = Some d ∧
    d !! "totalProjects" = Some (VNum 0) ∧
    d !! "projects" = Some (VArr []) ∧
    consistent d = true.
Proof.
  intros Hflag Hem Hpw Hnm Hfree Huid Hq.
  pose proof (quiet_head E w 2 Hq) as Hf1.
  pose proof (quiet_log E w 2 (AuthCreateUser (prop body "email") (prop body "password")
                                 (prop body "name")) Hq) as Hq2.
  unfold email_taken in Hfree.
  unfold register, try_catch. rewrite Hem, Hpw, Hnm, Hflag. simpl.
  unfold mbind, Eff_bind, bind, auth_createUser.
  rewrite sdk_call_ok by exact Hf1. simpl. rewrite Hfree. simpl.
  unfold users_set, mbind, Eff_bind, bind.
  rewrite (doc_ref_ok _ key) by exact Huid.
  rewrite sdk_call_ok by exact (quiet_head E _ 1 Hq2).
  unfold auth_createCustomToken.
  rewrite sdk_call_ok by exact (quiet_head E _ 0 (quiet_log E _ 1 _ Hq2)).
  eexists _, _, _. split; [reflexivity|]. split; [reflexivity|].
  split; [apply lookup_insert_eq|]. split; [reflexivity|]. split; reflexivity.
Qed.

(** Whether [userId] names a stored user record can be decided. *)
Lemma names_user_or_not (w : World) (userId : Value) :
  (∃ s key d, names_user w userId s key d) ∨ ¬ (∃ s key d, names_user w userId s key d).
Proof.
  destruct userId as [| | | | s | |];
    try (right; intros (s' & key & d0 & Hs' & _); discriminate).
  destruct (doc_key s) as [key|] eqn:Hk.
  - destruct (users w !! key) as [d0|] eqn:Hd0.
    + left. by exists s, key, d0.
    + right. intros (s' & key' & d0 & Hs' & Hk' & Hd0'). inversion Hs'; subst. congruence.
  - right. intros (s' & key' & d0 & Hs' & Hk' & _). inversion Hs'; subst. congruence.
Qed.

(** A create-project request for a stored user that is not answered 200
    leaves the user documents as they were. *)
Lemma create_project_failure_keeps_users E body w s key d :
  names_user w (prop body "userId") s key d →
  ¬ quiet E w 3 ∨ is_defined (prop body "name") = false
  ∨ is_defined (prop body "type") = false →
  ∃ w', create_project E body w = (Ok (failure 500 "Failed to create project"), w') ∧
        users w' = users w.
Proof.
  intros Hu Hcase.
  destruct (quiet_or_fault E w 3) as [Hq | (i & Hi & Hsome)].
  - destruct Hcase as [Hnq | Hundef]; [by destruct Hnq|].
    exists (tick (tick (tick (log (UsersGet key) w)))). split; [|reflexivity].
    apply (create_project_undefined E body w s key d Hu Hundef).
    exact (quiet_head E w 2 Hq).
  - apply (create_project_fails_on_fault E body w s key d Hu).
    intros Hq. by apply (quiet_not_fault E w 3 i Hq Hi).
Qed.

(** X19. A create-project request, whatever its body and whatever calls
    fail, keeps the record of a user consistent (the counter is the length
    of the list) as long as the id made from the clock is not already in
    the list of that user. *)
Lemma create_project_keeps_consistent E body w u d :
  users w !! u = Some d →
  consistent d = true →
  (∀ l, d !! "projects" = Some (VArr l) →
        VStr (str_num "project_" (clock E (ticks w))) ∉ l) →
  ∃ d', users (create_project E body w).2 !! u = Some d' ∧ consistent d' = true.
Proof.
  intros Hd Hc Hfresh.
  destruct (names_user_or_not w (prop body "userId")) as [(s & key & d0 & Hu) | Hno].
  - assert ((quiet E w 3 ∧ is_defined (prop body "name") = true
             ∧ is_defined (prop body "type") = true)
            ∨ (¬ quiet E w 3 ∨ is_defined (prop body "name") = false
               ∨ is_defined (prop body "type") = false)) as [(Hq & Hname & Htype) | Hfail].
    { destruct (quiet_or_fault E w 3) as [Hq | (i & Hi & Hsome)].
      - destruct (is_defined (prop body "name")); [|by right; right; left].
        destruct (is_defined (prop body "type")); [|by right; right; right].
        by left.
      - right; left. intros Hq. by apply (quiet_not_fault E w 3 i Hq Hi). }
    + rewrite (create_project_run E body w s key d0 Hu Hname Htype Hq).
      unfold after_create. simpl.
      destruct (decide (key = u)) as [-> | Hne].
      * destruct Hu as (_ & _ & Hd0). rewrite Hd in Hd0. inversion Hd0; subst d0.
        rewrite lookup_insert_eq. eexists. split; [reflexivity|].
        destruct (consistent_inv d Hc) as (l & Hn & Hl).
        destruct (count_project_lookup (str_num "project_" (clock E (ticks w))) d _ l Hn Hl)
          as (Hn' & Hl' & _).
        rewrite array_union_fresh in Hl' by exact (Hfresh l Hl).
        unfold consistent. rewrite Hn', Hl'. rewrite length_app. simpl.
        apply Z.eqb_eq. lia.
      * rewrite lookup_insert_ne by exact Hne. by exists d.
    + destruct (create_project_failure_keeps_users E body w s key d0 Hu Hfail)
        as (w2 & Hrun & Hsame).
      rewrite Hrun. simpl. rewrite Hsame. by exists d.
  - destruct (create_project_no_user E body w Hno)
      as (r & w' & cs & Hrun & _ & Hsame & _).
    rewrite Hrun. simpl. rewrite Hsame. by exists d.
Qed.

(** ** Every handler, every path *)

Ltac unfold_handlers :=
  unfold register, login, get_user, create_project, list_projects, update_user,
    health, list_users, verify_token;
  unfold try_catch, users_get, users_set, users_update, projects_set, projects_query,
    auth_createUser, auth_createCustomToken, auth_verifyIdToken, users_list,
    split_at0, doc_ref, date_now, sdk_call;
  unfold mbind, Eff_bind, bind, mret, Eff_ret, ret, throw.

(** One goal for each path through the handler in the goal. *)
Ltac all_paths :=
  unfold_handlers; simpl; repeat (case_match; simpl in *; simplify_eq).

Ltac solve_replies :=
  all_paths; unfold replies; simpl; eexists _, _;
  (split; [reflexivity|]); (split; [set_solver | reflexivity]).

(** X1. No handler lets an error out: whatever the request, the store and
    the faults of the calls, each of them ends with a response. The status
    is 200 or 400 for register, 200, 400 or 401 for login, 200, 404 or 500
    for get-user and create-project, 200 or 500 for list-user-projects,
    update-user and list-all-users, 200, 401 or 404 for verify-token, and
    the [success] field of the body is [true] exactly when the status is
    200. *)
Theorem handlers_always_answer (E : Env) (id_token_uid : Value → option string)
    (body : gmap string Value) (userId : string) (w : World) :
  replies [200; 400] (register E body w) ∧
  replies [200; 400; 401] (login E body w) ∧
  replies [200; 404; 500] (get_user E userId w) ∧
  replies [200; 404; 500] (create_project E body w) ∧
  replies [200; 500] (list_projects E userId w) ∧
  replies [200; 500] (update_user E userId body w) ∧
  replies [200; 500] (list_users E w) ∧
  replies [200; 401; 404] (verify_token E id_token_uid body w).
Proof. split_and!; solve_replies. Qed.

(** X2. Login, get-user, list-user-projects, list-all-users, verify-token
    and the health check never change the store or the identity service:
    on every path both collections and the accounts are as before. In
    particular login does not refresh [lastLogin]. *)
Theorem read_handlers_change_nothing (E : Env) (id_token_uid : Value → option string)
    (body : gmap string Value) (userId : string) (w : World) :
  same_data w (login E body w).2 ∧
  same_data w (get_user E userId w).2 ∧
  same_data w (list_projects E userId w).2 ∧
  same_data w (list_users E w).2 ∧
  same_data w (verify_token E id_token_uid body w).2 ∧
  same_data w (health E w).2.
Proof. split_and!; all_paths; by repeat split. Qed.

(** X3. Register, create-project and update-user never remove anything:
    on every path each user document, each project document and each
    account that existed before the request exists after it. *)
Theorem writers_keep_records (E : Env) (body : gmap string Value) (userId : string)
    (w : World) :
  keeps_records w (register E body w).2 ∧
  keeps_records w (create_project E body w).2 ∧
  keeps_records w (update_user E userId body w).2.
Proof.
  split_and!; all_paths; unfold keeps_records; simpl;
    rewrite ?dom_insert_L; split_and!;
    try set_solver; try reflexivity; by apply prefix_app_r.
Qed.

(** X4. A login request that lacks [email] or [password] is answered 400
    with the error "Missing email or password", in mock mode as with the
    store available; the clock is not read and no call is made. *)
Theorem login_missing_field (E : Env) (body : gmap string Value) (w : World) :
  body !! "email" = None ∨ body !! "password" = None →
  login E body w = (Ok (failure 400 "Missing email or password"), w).
Proof.
  intros H. unfold login, try_catch.
  destruct H as [H | H]; rewrite (prop_lookup_None _ _ H); simpl;
    rewrite ?orb_true_r; reflexivity.
Qed.

Lemma login_missing_field_witness :
  login (calm_env false (λ _, 0)) {[ "email" := VStr "al@b.c" ]} empty_world
  = (Ok (failure 400 "Missing email or password"), empty_world).
Proof.
  apply (login_missing_field (calm_env false (λ _, 0)) {[ "email" := VStr "al@b.c" ]}
           empty_world).
  right. reflexivity.
Defined.

(** X5. The health check answers 200 whether or not Firebase was
    initialised, reads the clock once and makes no SDK call;
    [firebaseStatus] tells the flag, [timestamp] is the reading of the
    clock, and, unlike the answers of the other handlers, the body has no
    [success] field. *)
Theorem health_always_online (E : Env) (w : World) :
  ∃ fields,
    health E w = (Ok (mkResponse 200 (VObj fields)), tick w) ∧
    alist_get "status" fields = VStr "online" ∧
    alist_get "firebaseStatus" fields
    = VStr (if firebaseInitialized E then "initialized" else "disabled") ∧
    alist_get "timestamp" fields = VStr (toISOString (clock E (ticks w))) ∧
    alist_get "success" fields = VUndef.
Proof. eexists. split; [reflexivity|]. by repeat split. Qed.

(** ** Register with the store available *)

Lemma quiet_weaken E w k k' : (k' ≤ k)%nat → quiet E w k → quiet E w k'.
Proof. intros Hk Hq i Hi. apply Hq. lia. Qed.

(** The run of register in which the three calls succeed. *)
Lemma register_run E body w key :
  firebaseInitialized E = true →
  truthy (prop body "email") = true →
  truthy (prop body "password") = true →
  truthy (prop body "name") = true →
  email_taken E w (prop body "email") = false →
  doc_key (new_uid E (List.length (accounts w))) = Some key →
  quiet E w 3 →
  let uid := new_uid E (List.length (accounts w)) in
  let t1 := clock E (ticks w) in
  let t2 := clock E (S (ticks w)) in
  let doc := registered_doc uid (prop body "email") (prop body "name") t1 t2 in
  let account := mkAccount uid (recorded_email E (prop body "email"))
                   (prop body "password") (prop body "name") in
  ∃ w1,
    register E body w
    = (Ok (registered_response E uid (recorded_email E (prop body "email"))
             (prop body "name") t1), w1) ∧
    users w1 = <[key := doc]> (users w) ∧
    projects w1 = projects w ∧
    accounts w1 = accounts w ++ [account] ∧
    calls w1 = calls w ++ [AuthCreateUser (prop body "email") (prop body "password")
                             (prop body "name");
                           UsersSet key doc; AuthCreateCustomToken uid].
Proof.
  intros Hflag Hem Hpw Hnm Hfree Huid Hq. cbv zeta.
  pose proof (quiet_head E w 2 Hq) as Hf1.
  pose proof (quiet_log E w 2 (AuthCreateUser (prop body "email") (prop body "password")
                                 (prop body "name")) Hq) as Hq2.
  unfold register, try_catch. rewrite Hem, Hpw, Hnm, Hflag. simpl.
  unfold mbind, Eff_bind, bind, auth_createUser.
  rewrite sdk_call_ok by exact Hf1. simpl.
  unfold email_taken in Hfree. rewrite Hfree. simpl.
  unfold users_set, mbind, Eff_bind, bind.
  rewrite (doc_ref_ok _ key) by exact Huid.
  rewrite sdk_call_ok by exact (quiet_head E _ 1 Hq2).
  unfold auth_createCustomToken.
  rewrite sdk_call_ok by exact (quiet_head E _ 0 (quiet_log E _ 1 _ Hq2)).
  eexists. split; [reflexivity|]. simpl.
  split; [reflexivity|]. split; [reflexivity|]. split; [reflexivity|].
  by rewrite <- !app_assoc.
Qed.

(** The run of get-user for a stored user. *)
Lemma get_user_run E userId key d w :
  doc_key userId = Some key →
  users w !! key = Some d →
  fault E (List.length (calls w)) = None →
  get_user E userId w
  = (Ok (success [("user", VObj ((λ k, (k, prop d k)) <$> safe_fields))]),
     log (UsersGet key) w).
Proof.
  intros Hid Hd Hf. unfold get_user, try_catch, mbind, Eff_bind, bind.
  rewrite (users_get_ok E userId key) by done. by rewrite Hd.
Qed.

(** X6. Register, then get-user with the returned id. With the store
    available, the three fields present, an email that no account has and
    the calls succeeding, register answers 200 with the new id, the name
    of the request, the token minted for the id and the email of the user
    record that the identity service returned (line 153), which is the
    email as the service records it; it adds one account and one user
    document and touches nothing else. The user document holds the email
    as the request spelled it (line 129), and this is the email that
    get-user for that id then answers, with the name, role ["user"],
    [totalProjects] 0 and the default settings. *)
Theorem register_then_get_user (E : Env) (body : gmap string Value) (w : World)
    (key : string) :
  firebaseInitialized E = true →
  truthy (prop body "email") = true →
  truthy (prop body "password") = true →
  truthy (prop body "name") = true →
  email_taken E w (prop body "email") = false →
  doc_key (new_uid E (List.length (accounts w))) = Some key →
  quiet E w 4 →
  let uid := new_uid E (List.length (accounts w)) in
  let email := prop body "email" in
  let name := prop body "name" in
  let t1 := clock E (ticks w) in
  let t2 := clock E (S (ticks w)) in
  ∃ w1,
    register E body w
    = (Ok (registered_response E uid (recorded_email E email) name t1), w1) ∧
    users w1 !! key = Some (registered_doc uid email name t1 t2) ∧
    (∀ u, u ≠ key → users w1 !! u = users w !! u) ∧
    projects w1 = projects w ∧
    accounts w1
    = accounts w ++ [mkAccount uid (recorded_email E email) (prop body "password") name] ∧
    get_user E uid w1
    = (Ok (success [("user", fresh_profile uid email name t1 t2)]),
       log (UsersGet key) w1).
Proof.
  intros Hflag Hem Hpw Hnm Hfree Huid Hq. cbv zeta.
  destruct (register_run E body w key Hflag Hem Hpw Hnm Hfree Huid
              (quiet_weaken E w 4 3 ltac:(lia) Hq))
    as (w1 & Hrun & Hu & Hp & Ha & Hc).
  exists w1. split; [exact Hrun|].
  assert (users w1 !! key
          = Some (registered_doc (new_uid E (List.length (accounts w)))
                    (prop body "email") (prop body "name")
                    (clock E (ticks w)) (clock E (S (ticks w))))) as Hdoc.
  { rewrite Hu. apply lookup_insert_eq. }
  split; [exact Hdoc|].
  split; [intros u Hne; rewrite Hu; apply lookup_insert_ne; congruence|].
  split; [exact Hp|]. split; [exact Ha|].
  rewrite (get_user_run E _ key _ w1 Huid Hdoc); [reflexivity|].
  rewrite Hc, length_app. simpl. apply Hq. lia.
Qed.

Lemma register_then_get_user_witness :
  let E := calm_env true (λ n, 1700000000000 + Z.of_nat n) in
  let body : gmap string Value :=
    {[ "email" := VStr "Al@B.c"; "password" := VStr "secret"; "name" := VStr "Al" ]} in
  ∃ w1,
    register E body empty_world
    = (Ok (registered_response E "uid0" (VStr "al@b.c") (VStr "Al") 1700000000000), w1) ∧
    get_user E "uid0" w1
    = (Ok (success [("user", fresh_profile "uid0" (VStr "Al@B.c") (VStr "Al")
                               1700000000000 1700000000001)]),
       log (UsersGet "uid0") w1).
Proof.
  intros E body.
  destruct (register_then_get_user E body empty_world "uid0")
    as (w1 & Hrun & _ & _ & _ & _ & Hget);
    [reflexivity | reflexivity | reflexivity | reflexivity | reflexivity
    | reflexivity | intros i _; reflexivity |].
  exists w1. split; [exact Hrun | exact Hget].
Defined.

(** X7. When the identity service does not create the account, register
    answers 400 with the message of the error, or "Registration failed"
    when the error has no message; the email being taken is one such
    error. No user document is written, no token is minted, and the store
    and the accounts are as before. *)
Theorem register_refused (E : Env) (body : gmap string Value) (w : World) :
  firebaseInitialized E = true →
  truthy (prop body "email") = true →
  truthy (prop body "password") = true →
  truthy (prop body "name") = true →
  let attempt := AuthCreateUser (prop body "email") (prop body "password")
                   (prop body "name") in
  (∀ msg, fault E (List.length (calls w)) = Some msg →
          register E body w = (Ok (failure 400 (registration_error msg)), log attempt w)) ∧
  (fault E (List.length (calls w)) = None →
   email_taken E w (prop body "email") = true →
   register E body w
   = (Ok (failure 400 "The email address is already in use by another account."),
      log attempt w)).
Proof.
  intros Hflag Hem Hpw Hnm. cbv zeta. split.
  - intros msg Hf. unfold register, try_catch. rewrite Hem, Hpw, Hnm, Hflag. simpl.
    unfold mbind, Eff_bind, bind, auth_createUser.
    by rewrite (sdk_call_fault _ _ _ _ msg) by exact Hf.
  - intros Hf Htaken. unfold register, try_catch. rewrite Hem, Hpw, Hnm, Hflag. simpl.
    unfold mbind, Eff_bind, bind, auth_createUser.
    rewrite sdk_call_ok by exact Hf. simpl.
    unfold email_taken in Htaken. by rewrite Htaken.
Qed.

Lemma register_refused_witness :
  let E := calm_env true (λ _, 0) in
  let body : gmap string Value :=
    {[ "email" := VStr "al@b.c"; "password" := VStr "secret"; "name" := VStr "Al" ]} in
  let w := mkWorld ∅ ∅ [mkAccount "uid0" (VStr "al@b.c") (VStr "other") (VStr "Alan")] 0 [] in
  register E body w
  = (Ok (failure 400 "The email address is already in use by another account."),
     log (AuthCreateUser (VStr "al@b.c") (VStr "secret") (VStr "Al")) w).
Proof.
  intros E body w.
  exact (proj2 (register_refused E body w eq_refl eq_refl eq_refl eq_refl) eq_refl eq_refl).
Defined.

(** X8. Registration is not atomic. When the account is created and the
    write of the user document then fails, register answers 400 with the
    message of that error: the account exists, no user document does. A
    second attempt with the same body is refused because the email is now
    taken. *)
Theorem register_orphan_account (E : Env) (body : gmap string Value) (w : World)
    (key msg : string) :
  firebaseInitialized E = true →
  truthy (prop body "email") = true →
  truthy (prop body "password") = true →
  truthy (prop body "name") = true →
  email_taken E w (prop body "email") = false →
  doc_key (new_uid E (List.length (accounts w))) = Some key →
  fault E (List.length (calls w)) = None →
  fault E (List.length (calls w) + 1) = Some msg →
  fault E (List.length (calls w) + 2) = None →
  let uid := new_uid E (List.length (accounts w)) in
  ∃ w1 w2,
    register E body w = (Ok (failure 400 (registration_error msg)), w1) ∧
    accounts w1 = accounts w ++ [mkAccount uid (recorded_email E (prop body "email"))
                                   (prop body "password") (prop body "name")] ∧
    users w1 = users w ∧
    register E body w1
    = (Ok (failure 400 "The email address is already in use by another account."), w2) ∧
    same_data w1 w2.
Proof.
  intros Hflag Hem Hpw Hnm Hfree Huid Hf1 Hf2 Hf3. cbv zeta.
  unfold register, try_catch. rewrite Hem, Hpw, Hnm, Hflag. simpl.
  unfold mbind, Eff_bind, bind, auth_createUser.
  rewrite sdk_call_ok by exact Hf1. simpl.
  unfold email_taken in Hfree. rewrite Hfree. simpl.
  unfold users_set, mbind, Eff_bind, bind.
  rewrite (doc_ref_ok _ key) by exact Huid.
  rewrite (sdk_call_fault _ _ _ _ msg)
    by (simpl; rewrite length_app; exact Hf2).
  eexists _, _. split; [reflexivity|]. simpl.
  split; [reflexivity|]. split; [reflexivity|].
  rewrite sdk_call_ok.
  2:{ simpl. rewrite !length_app. simpl.
      by replace (List.length (calls w) + 1 + 1)%nat with (List.length (calls w) + 2)%nat
        by lia. }
  simpl. rewrite existsb_app. simpl.
  rewrite (proj2 (value_eqb_eq (recorded_email E (prop body "email"))
                    (recorded_email E (prop body "email"))) eq_refl).
  rewrite orb_true_r. simpl. split; [reflexivity|]. by repeat split.
Qed.

Lemma register_orphan_account_witness :
  let E := faulty_env true (λ _, 0) (λ n, if Nat.eqb n 1 then Some "UNAVAILABLE" else None) in
  let body : gmap string Value :=
    {[ "email" := VStr "al@b.c"; "password" := VStr "secret"; "name" := VStr "Al" ]} in
  ∃ w1 w2,
    register E body empty_world = (Ok (failure 400 "UNAVAILABLE"), w1) ∧
    accounts w1 = [mkAccount "uid0" (VStr "al@b.c") (VStr "secret") (VStr "Al")] ∧
    users w1 = ∅ ∧
    register E body w1
    = (Ok (failure 400 "The email address is already in use by another account."), w2) ∧
    same_data w1 w2.
Proof.
  intros E body.
  apply (register_orphan_account E body empty_world "uid0" "UNAVAILABLE");
    reflexivity.
Defined.

(** ** Get user: the failures *)

(** X9. Get-user for an id that is the path of a document which does not
    exist answers 404 with the error "User not found"; when the read
    itself fails it answers 500 with the error "Server error", whatever the
    message of the failure; in both cases the only call is that read. For
    an id that is not the path of a document (such as [a/b], sent as
    [a%2Fb]) [doc()] throws: the answer is 500 and no call is made. *)
Theorem get_user_failures (E : Env) (userId : string) (w : World) :
  (∀ key, doc_key userId = Some key →
     (users w !! key = None →
      fault E (List.length (calls w)) = None →
      get_user E userId w = (Ok (failure 404 "User not found"), log (UsersGet key) w)) ∧
     (∀ msg, fault E (List.length (calls w)) = Some msg →
             get_user E userId w
             = (Ok (failure 500 "Server error"), log (UsersGet key) w))) ∧
  (doc_key userId = None →
   get_user E userId w = (Ok (failure 500 "Server error"), w)).
Proof.
  split.
  - intros key Hid. split.
    + intros Hnone Hf. unfold get_user, try_catch, mbind, Eff_bind, bind.
      rewrite (users_get_ok E userId key) by done. by rewrite Hnone.
    + intros msg Hf. unfold get_user, try_catch, mbind, Eff_bind, bind.
      by rewrite (users_get_fault _ userId key _ msg).
  - intros Hid. unfold get_user, try_catch, users_get, mbind, Eff_bind, bind, doc_ref.
    by rewrite Hid.
Qed.

Lemma get_user_failures_witness :
  get_user (calm_env true (λ _, 0)) "ghost" empty_world
  = (Ok (failure 404 "User not found"), log (UsersGet "ghost") empty_world) ∧
  get_user (calm_env true (λ _, 0)) "a/b" empty_world
  = (Ok (failure 500 "Server error"), empty_world).
Proof.
  split.
  - apply (proj1 (get_user_failures (calm_env true (λ _, 0)) "ghost" empty_world)
             "ghost" eq_refl); reflexivity.
  - apply (proj2 (get_user_failures (calm_env true (λ _, 0)) "a/b" empty_world)).
    reflexivity.
Defined.

(** ** Create project: failing calls *)

(** X10. Create-project is not atomic. For a stored user, a failure of
    the lookup or of the write of the project is answered 500 and leaves
    both collections as they were. A failure of the update of the user
    (the request has a [name] and a [type], so that the project was
    written) is answered 500 as well, but the project document is already
    stored: the collection has a project that the counter and the list of
    its user do not know. *)
Theorem create_project_fault_effects (E : Env) (body : gmap string Value) (w : World)
    (s key : string) (d : Doc) (msg : string) :
  names_user w (prop body "userId") s key d →
  let n := List.length (calls w) in
  let p := new_project E body w in
  let failed := failure 500 "Failed to create project" in
  (fault E n = Some msg →
   ∃ w', create_project E body w = (Ok failed, w') ∧ same_data w w') ∧
  (fault E n = None → fault E (n + 1) = Some msg →
   ∃ w', create_project E body w = (Ok failed, w') ∧ same_data w w') ∧
  (is_defined (prop body "name") = true → is_defined (prop body "type") = true →
   fault E n = None → fault E (n + 1) = None → fault E (n + 2) = Some msg →
   ∃ w', create_project E body w = (Ok failed, w') ∧
         projects w' = <[p_id p := p]> (projects w) ∧
         users w' = users w ∧ users w' !! key = Some d).
Proof.
  intros (Hv & Hs & Hd). cbv zeta.
  split; [|split].
  - intros Hf. unfold create_project, try_catch, mbind, Eff_bind, bind. rewrite Hv.
    rewrite (users_get_fault _ s key _ msg) by done. eexists. by repeat split.
  - intros Hf1 Hf2. unfold create_project, try_catch, mbind, Eff_bind, bind. rewrite Hv.
    rewrite (users_get_ok _ s key) by done. rewrite Hd. simpl.
    unfold projects_set, mbind, Eff_bind, bind.
    rewrite (doc_ref_ok _ _ _ (project_id_key _)).
    destruct (project_defined _); [|eexists; by repeat split].
    rewrite (sdk_call_fault _ _ _ _ msg) by (simpl; rewrite length_app; exact Hf2).
    eexists. by repeat split.
  - intros Hname Htype Hf1 Hf2 Hf3.
    unfold create_project, try_catch, mbind, Eff_bind, bind. rewrite Hv.
    rewrite (users_get_ok _ s key) by done. rewrite Hd. simpl.
    rewrite projects_set_ok;
      [| by apply project_defined_new | simpl; rewrite length_app; exact Hf2 ].
    unfold users_update, mbind, Eff_bind, bind. rewrite (doc_ref_ok s key) by exact Hs.
    rewrite (sdk_call_fault _ _ _ _ msg).
    2:{ simpl. rewrite !length_app. simpl.
        by replace (List.length (calls w) + 1 + 1)%nat
          with (List.length (calls w) + 2)%nat by lia. }
    eexists. split; [reflexivity|].
    split; [unfold new_project; rewrite Hv; reflexivity|].
    split; [reflexivity | exact Hd].
Qed.

Lemma create_project_fault_effects_witness :
  let E := faulty_env true (λ _, 1700000000000)
             (λ n, if Nat.eqb n 2 then Some "UNAVAILABLE" else None) in
  let d : Doc := {[ "totalProjects" := VNum 0; "projects" := VArr [] ]} in
  let w := mkWorld {[ "u1" := d ]} ∅ [] 0 [] in
  let body : gmap string Value :=
    {[ "userId" := VStr "u1"; "name" := VStr "Site"; "type" := VStr "web" ]} in
  ∃ w', create_project E body w = (Ok (failure 500 "Failed to create project"), w') ∧
        projects w' = {[ "project_1700000000000" := new_project E body w ]} ∧
        users w' = users w ∧ users w' !! "u1" = Some d.
Proof.
  intros E d w body.
  assert (names_user w (prop body "userId") "u1" "u1" d) as Hu.
  { split; [reflexivity | split; reflexivity]. }
  destruct (create_project_fault_effects E body w "u1" "u1" d "UNAVAILABLE" Hu)
    as (_ & _ & H3).
  exact (H3 eq_refl eq_refl eq_refl eq_refl eq_refl).
Defined.

(** ** Create project, then list *)

(** X11. A project that create-project has stored (the request has a
    [name] and a [type]) is in the list of the projects of its user, and
    in the list of no other user. *)
Theorem create_then_list (E : Env) (body : gmap string Value) (w : World)
    (s key : string) (d : Doc) :
  names_user w (prop body "userId") s key d →
  is_defined (prop body "name") = true →
  is_defined (prop body "type") = true →
  quiet E w 4 →
  let p := new_project E body w in
  ∃ w1 ps,
    create_project E body w = (Ok (created_response p), w1) ∧
    list_projects E s w1 = (Ok (listing ps), log (ProjectsQuery s) w1) ∧
    p ∈ ps ∧
    (∀ u, u ≠ s → p ∉ projects_of u (projects w1)).
Proof.
  intros Hu Hname Htype Hq. cbv zeta.
  pose proof (create_project_run E body w s key d Hu Hname Htype
                (quiet_weaken E w 4 3 ltac:(lia) Hq))
    as Hrun.
  destruct Hu as (Hv & Hs & Hd).
  exists (after_create E body w key d),
         (projects_of s (projects (after_create E body w key d))).
  split; [exact Hrun|]. split; [|split].
  - unfold list_projects, try_catch, mbind, Eff_bind, bind, projects_query.
    rewrite sdk_call_ok; [reflexivity|].
    unfold after_create. simpl. rewrite !length_app. simpl.
    replace (List.length (calls w) + 1 + 1 + 1)%nat with (List.length (calls w) + 3)%nat
      by lia.
    apply Hq. lia.
  - unfold projects_of. apply list_elem_of_fmap.
    exists (p_id (new_project E body w), new_project E body w). split; [reflexivity|].
    apply elem_of_projects_snapshot. split.
    + unfold after_create. simpl. apply lookup_insert_eq.
    + exact Hv.
  - intros u Hne Hin. unfold projects_of in Hin.
    apply list_elem_of_fmap in Hin as ([k p'] & Hp' & Hin). simpl in Hp'. subst p'.
    apply elem_of_projects_snapshot in Hin as [_ Hown].
    unfold owned_by in Hown. simpl in Hown. rewrite Hv in Hown.
    apply Hne. by inversion Hown.
Qed.

Lemma create_then_list_witness :
  let E := calm_env true (λ n, 1700000000000 + Z.of_nat n) in
  let d : Doc := {[ "totalProjects" := VNum 0; "projects" := VArr [] ]} in
  let w := mkWorld {[ "u1" := d ]} ∅ [] 0 [] in
  let body : gmap string Value :=
    {[ "userId" := VStr "u1"; "name" := VStr "Site"; "type" := VStr "web" ]} in
  ∃ w1 ps,
    create_project E body w = (Ok (created_response (new_project E body w)), w1) ∧
    list_projects E "u1" w1 = (Ok (listing ps), log (ProjectsQuery "u1") w1) ∧
    new_project E body w ∈ ps ∧
    (∀ u, u ≠ "u1" → new_project E body w ∉ projects_of u (projects w1)).
Proof.
  intros E d w body.
  apply (create_then_list E body w "u1" "u1" d).
  - split; [reflexivity | split; reflexivity].
  - reflexivity.
  - reflexivity.
  - intros i _. reflexivity.
Defined.

(** ** Update user: unknown users, ignored fields, reading back *)

(** The run of update-user for a stored user when both calls succeed. *)
Lemma update_user_run E userId key body d w :
  doc_key userId = Some key →
  users w !! key = Some d →
  quiet E w 2 →
  let upd := sanitized body (clock E (ticks w)) in
  let d' := doc_update (SetTo <$> upd) d in
  update_user E userId body w
  = (Ok (updated_response d'),
     log (UsersGet key)
       (set_users (insert key d') (log (UsersUpdate key (SetTo <$> upd)) (tick w)))).
Proof.
  intros Hid Hd Hq. cbv zeta.
  unfold update_user, try_catch, mbind, Eff_bind, bind, date_now.
  rewrite (users_update_ok _ userId key _ d);
    [| done | exact (quiet_head E w 1 Hq) | done].
  rewrite (users_get_ok _ userId key);
    [| done | exact (quiet_head E _ 0 (quiet_log E (tick w) 1 _ Hq)) ].
  simpl. by rewrite lookup_insert_eq.
Qed.

(** X12. Update-user never creates a user: for an id that is the path of
    a document which does not exist the [update] call fails, the answer is
    500 with the error "Failed to update profile" (not 404), the record is
    not read back, the [update] call is the only call and the collections
    are as before. For an id that is not the path of a document (such as
    [a/b], sent as [a%2Fb]) [doc()] throws before [update] is called: the
    answer is the same 500, no call is made and nothing changes. *)
Theorem update_user_unknown (E : Env) (userId : string) (body : gmap string Value)
    (w : World) :
  (∀ key, doc_key userId = Some key → users w !! key = None →
     ∃ w',
       update_user E userId body w = (Ok (failure 500 "Failed to update profile"), w') ∧
       same_data w w' ∧
       calls w' = calls w ++ [UsersUpdate key
                                (SetTo <$> sanitized body (clock E (ticks w)))]) ∧
  (doc_key userId = None →
   ∃ w',
     update_user E userId body w = (Ok (failure 500 "Failed to update profile"), w') ∧
     same_data w w' ∧ calls w' = calls w).
Proof.
  split.
  - intros key Hid Hnone.
    unfold update_user, try_catch, mbind, Eff_bind, bind, date_now, users_update,
      mbind, Eff_bind, bind.
    rewrite (doc_ref_ok userId key) by done. unfold sdk_call. simpl.
    destruct (fault E (List.length (calls w))) as [msg|].
    + eexists. split; [reflexivity|]. by repeat split.
    + rewrite Hnone. eexists. split; [reflexivity|]. by repeat split.
  - intros Hid.
    unfold update_user, try_catch, mbind, Eff_bind, bind, date_now, users_update,
      mbind, Eff_bind, bind, doc_ref.
    rewrite Hid. eexists. split; [reflexivity|]. by repeat split.
Qed.

Lemma update_user_unknown_witness :
  (∃ w',
     update_user (calm_env true (λ _, 0)) "ghost" {[ "name" := VStr "Bob" ]} empty_world
     = (Ok (failure 500 "Failed to update profile"), w') ∧
     same_data empty_world w' ∧
     calls w' = [UsersUpdate "ghost"
                   (SetTo <$> sanitized {[ "name" := VStr "Bob" ]} 0)]) ∧
  (∃ w',
     update_user (calm_env true (λ _, 0)) "a/b" {[ "name" := VStr "Bob" ]} empty_world
     = (Ok (failure 500 "Failed to update profile"), w') ∧
     same_data empty_world w' ∧ calls w' = []).
Proof.
  split.
  - apply (proj1 (update_user_unknown (calm_env true (λ _, 0)) "ghost"
                    {[ "name" := VStr "Bob" ]} empty_world) "ghost");
      reflexivity.
  - apply (proj2 (update_user_unknown (calm_env true (λ _, 0)) "a/b"
                    {[ "name" := VStr "Bob" ]} empty_world)).
    reflexivity.
Defined.

Lemma sanitized_insert_ignored (body : gmap string Value) (t : Z) (k : string) (v : Value) :
  k ∈ protected_fields ∨ k = "updatedAt" →
  sanitized (<[k := v]> body) t = sanitized body t.
Proof.
  intros Hk. apply map_eq. intros j.
  destruct (sanitized_lookup (<[k := v]> body) t) as (Hp1 & Hs1 & Ho1).
  destruct (sanitized_lookup body t) as (Hp2 & Hs2 & Ho2).
  destruct (decide (j ∈ protected_fields)) as [Hj | Hj].
  { by rewrite Hp1, Hp2. }
  destruct (decide (j = "updatedAt")) as [-> | Hne].
  { by rewrite Hs1, Hs2. }
  rewrite Ho1, Ho2 by done. apply lookup_insert_ne.
  intros ->. by destruct Hk.
Qed.

(** X13. What the request says for [uid], [email], [createdAt] or
    [updatedAt] has no effect on update-user: with any value for one of
    these fields the handler makes the same calls, leaves the same world
    and gives the same answer as without it. *)
Theorem update_user_ignores_protected (E : Env) (userId : string)
    (body : gmap string Value) (w : World) (k : string) (v : Value) :
  k ∈ protected_fields ∨ k = "updatedAt" →
  update_user E userId (<[k := v]> body) w = update_user E userId body w.
Proof.
  intros Hk. unfold update_user, try_catch, mbind, Eff_bind, bind, date_now.
  by rewrite sanitized_insert_ignored.
Qed.

Lemma update_user_ignores_protected_witness :
  let E := calm_env true (λ _, 0) in
  let w := mkWorld {[ "u1" := {[ "email" := VStr "al@b.c" ]} ]} ∅ [] 0 [] in
  update_user E "u1" (<["email" := VStr "eve@x.y"]> {[ "name" := VStr "Bob" ]}) w
  = update_user E "u1" {[ "name" := VStr "Bob" ]} w.
Proof.
  intros E w.
  apply (update_user_ignores_protected E "u1" {[ "name" := VStr "Bob" ]} w "email"
           (VStr "eve@x.y")).
  left. unfold protected_fields. apply list_elem_of_further, list_elem_of_here.
Defined.

(** X14. Update-user, then get-user. For a stored user and a body whose
    keys are plain field names, when the calls succeed, get-user returns
    the record after the update: [uid], [email] and [createdAt] are the
    stored ones; any other field that the body has, [role] and
    [totalProjects] included, has the value of the body; a field that the
    body does not have, other than [updatedAt], is the stored one. *)
Theorem update_then_get_user (E : Env) (userId key : string) (body : gmap string Value)
    (d : Doc) (w : World) :
  doc_key userId = Some key →
  users w !! key = Some d →
  (∀ k, is_Some (body !! k) → plain_key k = true) →
  quiet E w 3 →
  ∃ w1 d',
    update_user E userId body w = (Ok (updated_response d'), w1) ∧
    get_user E userId w1
    = (Ok (success [("user", VObj ((λ k, (k, prop d' k)) <$> safe_fields))]),
       log (UsersGet key) w1) ∧
    (∀ k, k ∈ protected_fields → prop d' k = prop d k) ∧
    (∀ k v, k ∉ protected_fields → k ≠ "updatedAt" → body !! k = Some v → prop d' k = v) ∧
    (∀ k, k ≠ "updatedAt" → body !! k = None → prop d' k = prop d k).
Proof.
  intros Hid Hd Hplain Hq.
  pose proof (update_user_run E userId key body d w Hid Hd
                (quiet_weaken E w 3 2 ltac:(lia) Hq))
    as Hrun. cbv zeta in Hrun.
  destruct (sanitized_lookup body (clock E (ticks w))) as (Hp & Hs & Ho).
  set (upd := sanitized body (clock E (ticks w))) in *.
  assert (doc_update (SetTo <$> upd) d = upd ∪ d) as Hmerge.
  { apply doc_update_plain. intros k [x Hx].
    destruct (decide (k = "updatedAt")) as [-> | Hne]; [reflexivity|].
    destruct (decide (k ∈ protected_fields)) as [Hin | Hnin].
    - rewrite Hp in Hx by done. discriminate.
    - apply Hplain. rewrite <- Ho by done. by eexists. }
  rewrite Hmerge in Hrun.
  eexists _, (upd ∪ d). split; [exact Hrun|]. split; [|split_and!].
  - apply get_user_run; [done | simpl; apply lookup_insert_eq |].
    simpl. rewrite !length_app. simpl.
    replace (List.length (calls w) + 1 + 1)%nat with (List.length (calls w) + 2)%nat by lia.
    apply Hq. lia.
  - intros k Hk. unfold prop. by rewrite lookup_union_r by by apply Hp.
  - intros k v Hk Hne Hb. unfold prop.
    rewrite (lookup_union_Some_l _ _ _ v); [done|]. by rewrite Ho.
  - intros k Hne Hb. unfold prop. rewrite lookup_union_r; [done|].
    destruct (decide (k ∈ protected_fields)) as [Hin | Hnin]; [by apply Hp|].
    by rewrite Ho.
Qed.

Lemma update_then_get_user_witness :
  let E := calm_env true (λ _, 1700000000000) in
  let d : Doc := {[ "uid" := VStr "u1"; "email" := VStr "al@b.c"; "role" := VStr "user" ]} in
  let w := mkWorld {[ "u1" := d ]} ∅ [] 0 [] in
  let body : gmap string Value := {[ "email" := VStr "eve@x.y"; "role" := VStr "admin" ]} in
  ∃ w1 d',
    update_user E "u1" body w = (Ok (updated_response d'), w1) ∧
    get_user E "u1" w1
    = (Ok (success [("user", VObj ((λ k, (k, prop d' k)) <$> safe_fields))]),
       log (UsersGet "u1") w1) ∧
    prop d' "email" = VStr "al@b.c" ∧
    prop d' "role" = VStr "admin".
Proof.
  intros E d w body.
  destruct (update_then_get_user E "u1" "u1" body d w)
    as (w1 & d' & Hrun & Hget & Hp & Hb & _).
  - reflexivity.
  - reflexivity.
  - intros key Hk.
    destruct (lookup_pair_inv _ _ _ _ _ Hk) as [-> | ->]; reflexivity.
  - intros i _. reflexivity.
  - exists w1, d'. split; [exact Hrun|]. split; [exact Hget|]. split.
    + rewrite Hp; [reflexivity|].
      unfold protected_fields. apply list_elem_of_further, list_elem_of_here.
    + apply Hb; [| discriminate | reflexivity].
      unfold protected_fields. intros Hin.
      repeat (apply elem_of_cons in Hin as [Hin | Hin]; [discriminate|]).
      by apply elem_of_nil in Hin.
Defined.

(** ** List all users *)

#[local] Instance key_order_total {A} : Total (λ a b : string * A, Is_true (String.leb a.1 b.1)).
Proof.
  intros a b. destruct (String.leb_total a.1 b.1) as [H | H]; rewrite H; auto.
Qed.

#[local] Instance key_order_trans {A} :
  Transitive (λ a b : string * A, Is_true (String.leb a.1 b.1)).
Proof.
  intros a b c H1 H2. apply Is_true_true. apply Is_true_true in H1, H2.
  by apply (leb_trans _ b.1).
Qed.

Lemma all_users_perm (us : gmap string Doc) :
  all_users us ≡ₚ List.filter (λ kd, negb (has_slash kd.1)) (map_to_list us).
Proof. apply merge_sort_Permutation. Qed.

Lemma elem_of_all_users (us : gmap string Doc) (id : string) (d : Doc) :
  (id, d) ∈ all_users us ↔ us !! id = Some d ∧ has_slash id = false.
Proof.
  rewrite all_users_perm, list_elem_of_In, filter_In, <- list_elem_of_In.
  rewrite elem_of_map_to_list. simpl. by rewrite negb_true_iff.
Qed.

Lemma filter_all {A} (f : A → bool) (l : list A) :
  (∀ x, x ∈ l → f x = true) → List.filter f l = l.
Proof.
  induction l as [|x l IH]; [done|]. intros H. simpl.
  rewrite (H x) by apply list_elem_of_here. f_equal. apply IH.
  intros y Hy. apply H. by apply list_elem_of_further.
Qed.

(** X15. List-all-users answers 200 with one entry for each document of
    the [users] collection, by ascending document id, and with their
    number as [count] (an empty list and 0 for an empty collection); an
    entry has the fields [uid], [email], [name], [createdAt] and
    [totalProjects], the last one being 0 when the record has none or a
    falsy one. Documents of collections below [users] are not listed; when
    there is none, [count] is the number of documents that the store holds
    for [users]. When the read fails the answer is 500 with the error
    "Failed to fetch users". *)
Theorem list_users_summary (E : Env) (w : World) :
  (fault E (List.length (calls w)) = None →
   ∃ docs : list (string * Doc),
     list_users E w
     = (Ok (success [("users", VArr (user_summary <$> docs.*2));
                     ("count", VNum (Z.of_nat (List.length docs)))]), w) ∧
     (∀ id d, (id, d) ∈ docs ↔ users w !! id = Some d ∧ has_slash id = false) ∧
     NoDup docs.*1 ∧
     StronglySorted (λ a b, String.leb a b = true) docs.*1 ∧
     ((∀ id, is_Some (users w !! id) → has_slash id = false) →
      List.length docs = size (users w))) ∧
  (∀ msg, fault E (List.length (calls w)) = Some msg →
          list_users E w = (Ok (failure 500 "Failed to fetch users"), w)) ∧
  (∀ d, truthy (prop d "totalProjects") = false →
        user_summary d
        = VObj [("uid", prop d "uid"); ("email", prop d "email"); ("name", prop d "name");
                ("createdAt", prop d "createdAt"); ("totalProjects", VNum 0)]).
Proof.
  split_and!.
  - intros Hf. exists (all_users (users w)). split_and!.
    + unfold list_users, try_catch, mbind, Eff_bind, bind, users_list. rewrite Hf. simpl.
      by rewrite !length_fmap.
    + intros id d. apply elem_of_all_users.
    + rewrite all_users_perm.
      eapply sublist_NoDup; [apply (NoDup_fst_map_to_list (users w))|].
      apply fmap_sublist.
      induction (map_to_list (users w)) as [|x l IH]; simpl; [constructor|].
      destruct (negb _); by constructor.
    + apply (StronglySorted_fmap fst (λ a b, Is_true (String.leb a.1 b.1))).
      * intros a b H. by apply Is_true_true.
      * apply StronglySorted_merge_sort; apply _.
    + intros Hplain. rewrite (Permutation_length (all_users_perm (users w))).
      rewrite filter_all; [by rewrite length_map_to_list|].
      intros [id d] Hin. apply elem_of_map_to_list in Hin. simpl.
      rewrite (Hplain id); [done | by eexists].
  - intros msg Hf. unfold list_users, try_catch, mbind, Eff_bind, bind, users_list.
    by rewrite Hf.
  - intros d Hd. unfold user_summary, js_or. by rewrite Hd.
Qed.

Lemma list_users_summary_witness :
  let E := calm_env true (λ _, 0) in
  let w := mkWorld {[ "zed" := {[ "uid" := VStr "zed" ]};
                      "amy" := {[ "uid" := VStr "amy"; "totalProjects" := VNum 2 ]};
                      "amy/notes/n1" := {[ "text" := VStr "hello" ]} ]}
             ∅ [] 0 [] in
  list_users E w
  = (Ok (success [("users",
                   VArr [VObj [("uid", VStr "amy"); ("email", VUndef); ("name", VUndef);
                               ("createdAt", VUndef); ("totalProjects", VNum 2)];
                         VObj [("uid", VStr "zed"); ("email", VUndef); ("name", VUndef);
                               ("createdAt", VUndef); ("totalProjects", VNum 0)]]);
                  ("count", VNum 2)]), w) ∧
  ∃ docs : list (string * Doc),
    list_users E w
    = (Ok (success [("users", VArr (user_summary <$> docs.*2));
                    ("count", VNum (Z.of_nat (List.length docs)))]), w) ∧
    (∀ id d, (id, d) ∈ docs ↔ users w !! id = Some d ∧ has_slash id = false) ∧
    NoDup docs.*1 ∧
    StronglySorted (λ a b, String.leb a b = true) docs.*1.
Proof.
  intros E w. split; [vm_compute; reflexivity|].
  destruct (proj1 (list_users_summary E w) eq_refl) as (docs & H1 & H2 & H3 & H4 & _).
  exists docs. split; [exact H1|]. split; [exact H2|]. split; [exact H3 | exact H4].
Defined.

(** ** Verify token *)

(** X16. Verify-token refuses with 401 in three ways and with 404 in one.
    Without a token the answer is 401 "No token provided" and nothing is
    called. A token that the identity service does not accept is answered
    401 "Invalid or expired token" without reading the store. The same
    answer is given when the token is accepted and the read of the user
    fails: a fault of the store is reported as an invalid token. A token
    accepted for an id that has no document is answered 404 "User not
    found". *)
Theorem verify_token_refusals (E : Env) (id_token_uid : Value → option string)
    (body : gmap string Value) (w : World) :
  (truthy (prop body "token") = false →
   verify_token E id_token_uid body w = (Ok (failure 401 "No token provided"), w)) ∧
  (truthy (prop body "token") = true →
   id_token_uid (prop body "token") = None →
   verify_token E id_token_uid body w = (Ok (failure 401 "Invalid or expired token"), w)) ∧
  (∀ uid key msg,
     truthy (prop body "token") = true →
     id_token_uid (prop body "token") = Some uid → doc_key uid = Some key →
     fault E (List.length (calls w)) = Some msg →
     verify_token E id_token_uid body w
     = (Ok (failure 401 "Invalid or expired token"), log (UsersGet key) w)) ∧
  (∀ uid key,
     truthy (prop body "token") = true →
     id_token_uid (prop body "token") = Some uid → doc_key uid = Some key →
     fault E (List.length (calls w)) = None →
     users w !! key = None →
     verify_token E id_token_uid body w
     = (Ok (failure 404 "User not found"), log (UsersGet key) w)).
Proof.
  split_and!.
  - intros Ht. unfold verify_token, try_catch. by rewrite Ht.
  - intros Ht Hno. unfold verify_token, try_catch, auth_verifyIdToken, mbind, Eff_bind, bind.
    by rewrite Ht, Hno.
  - intros uid key msg Ht Hu Hne Hf.
    unfold verify_token, try_catch, auth_verifyIdToken, mbind, Eff_bind, bind.
    rewrite Ht, Hu. simpl. by rewrite (users_get_fault _ uid key _ msg).
  - intros uid key Ht Hu Hne Hf Hnone.
    unfold verify_token, try_catch, auth_verifyIdToken, mbind, Eff_bind, bind.
    rewrite Ht, Hu. simpl. rewrite (users_get_ok _ uid key) by done. by rewrite Hnone.
Qed.

Lemma verify_token_refusals_witness :
  let E := faulty_env true (λ _, 0) (λ _, Some "UNAVAILABLE") in
  let accept (token : Value) :=
    if value_eqb token (VStr "good") then Some "u1" else None in
  verify_token E accept ∅ empty_world
  = (Ok (failure 401 "No token provided"), empty_world) ∧
  verify_token E accept {[ "token" := VStr "forged" ]} empty_world
  = (Ok (failure 401 "Invalid or expired token"), empty_world) ∧
  verify_token E accept {[ "token" := VStr "good" ]} empty_world
  = (Ok (failure 401 "Invalid or expired token"), log (UsersGet "u1") empty_world) ∧
  verify_token (calm_env true (λ _, 0)) accept {[ "token" := VStr "good" ]} empty_world
  = (Ok (failure 404 "User not found"), log (UsersGet "u1") empty_world).
Proof.
  intros E accept. split_and!.
  - exact (proj1 (verify_token_refusals E accept ∅ empty_world) eq_refl).
  - exact (proj1 (proj2 (verify_token_refusals E accept {[ "token" := VStr "forged" ]}
                           empty_world)) eq_refl eq_refl).
  - apply (proj1 (proj2 (proj2 (verify_token_refusals E accept {[ "token" := VStr "good" ]}
                                  empty_world))) "u1" "u1" "UNAVAILABLE");
      reflexivity.
  - apply (proj2 (proj2 (proj2 (verify_token_refusals (calm_env true (λ _, 0)) accept
                                  {[ "token" := VStr "good" ]} empty_world))) "u1" "u1");
      reflexivity.
Defined.

(** X17. For a token accepted for the id of a stored user, verify-token
    answers 200 with the fields [uid], [email], [name], [createdAt],
    [lastLogin], [role] and [totalProjects] of the record, the last one
    being 0 when the record has none or a falsy one; [settings] and
    [projects] are not returned. The password or the accounts play no
    part: the only call is the read of the record. *)
Theorem verify_token_known_user (E : Env) (id_token_uid : Value → option string)
    (body : gmap string Value) (w : World) (uid key : string) (d : Doc) :
  truthy (prop body "token") = true →
  id_token_uid (prop body "token") = Some uid →
  doc_key uid = Some key →
  users w !! key = Some d →
  fault E (List.length (calls w)) = None →
  ∃ obj,
    verify_token E id_token_uid body w
    = (Ok (success [("user", VObj obj)]), log (UsersGet key) w) ∧
    obj.*1 = ["uid"; "email"; "name"; "createdAt"; "lastLogin"; "role"; "totalProjects"] ∧
    (∀ k, k ∈ ["uid"; "email"; "name"; "createdAt"; "lastLogin"; "role"] →
          alist_get k obj = prop d k) ∧
    alist_get "totalProjects" obj
    = (if truthy (prop d "totalProjects") then prop d "totalProjects" else VNum 0).
Proof.
  intros Ht Hu Hne Hd Hf. eexists. split_and!.
  - unfold verify_token, try_catch, auth_verifyIdToken, mbind, Eff_bind, bind.
    rewrite Ht, Hu. simpl. rewrite (users_get_ok _ uid key) by done. rewrite Hd.
    reflexivity.
  - reflexivity.
  - intros k Hk.
    repeat (apply elem_of_cons in Hk as [-> | Hk]; [reflexivity|]).
    by apply elem_of_nil in Hk.
  - reflexivity.
Qed.

Lemma verify_token_known_user_witness :
  let E := calm_env true (λ _, 0) in
  let d : Doc := {[ "uid" := VStr "u1"; "settings" := VObj []; "projects" := VArr [] ]} in
  let w := mkWorld {[ "u1" := d ]} ∅ [] 0 [] in
  ∃ obj,
    verify_token E (λ _, Some "u1") {[ "token" := VStr "good" ]} w
    = (Ok (success [("user", VObj obj)]), log (UsersGet "u1") w) ∧
    obj.*1 = ["uid"; "email"; "name"; "createdAt"; "lastLogin"; "role"; "totalProjects"] ∧
    alist_get "totalProjects" obj = VNum 0.
Proof.
  intros E d w.
  destruct (verify_token_known_user E (λ _, Some "u1") {[ "token" := VStr "good" ]} w
              "u1" "u1" d)
    as (obj & Hrun & Hkeys & _ & Htotal);
    [reflexivity | reflexivity | reflexivity | reflexivity | reflexivity |].
  exists obj. split; [exact Hrun|]. split; [exact Hkeys | exact Htotal].
Defined.

(** ** The name in the answers of login *)

(** X18. The name that login puts in its answer is the part of the email
    before its first ['@']: it has no ['@'], the email is that name
    followed either by nothing (an email without ['@'] is its own name) or
    by a rest that starts with ['@'] (an email that starts with ['@'] has
    the empty name). *)
Theorem before_at_spec (s : string) :
  ("@"%char ∉ list_ascii_of_string (before_at s)) ∧
  ∃ rest, s = before_at s +:+ rest ∧ (rest = "" ∨ ∃ r, rest = String "@"%char r).
Proof.
  induction s as [|c s [IHno (rest & IHeq & IHrest)]]; simpl.
  - split; [apply not_elem_of_nil|]. exists "". split; [reflexivity | by left].
  - destruct (Ascii.eqb c "@") eqn:Hc.
    + apply Ascii.eqb_eq in Hc as ->. split; [apply not_elem_of_nil|].
      exists (String "@"%char s). split; [reflexivity | right; by eexists].
    + apply Ascii.eqb_neq in Hc. split.
      * simpl. intros Hin. apply elem_of_cons in Hin as [Heq | Hin]; [by destruct Hc|].
        by apply IHno.
      * exists rest. split; [|exact IHrest].
        change (String c s = String c (before_at s +:+ rest)). by f_equal.
Qed.

(** ** Witnesses for the lemmas on fresh project ids *)

Lemma create_project_fresh_id_witness :
  let E := calm_env true (λ n, 1700000000000 + Z.of_nat n) in
  let d : Doc := {[ "totalProjects" := VNum 1; "projects" := VArr [VStr "project_1"] ]} in
  let w := mkWorld {[ "u1" := d ]} ∅ [] 0 [] in
  let body : gmap string Value :=
    {[ "userId" := VStr "u1"; "name" := VStr "Site"; "type" := VStr "web" ]} in
  ∃ w' d' p,
    create_project E body w = (Ok (created_response p), w') ∧
    users w' !! "u1" = Some d' ∧
    d' !! "totalProjects" = Some (VNum 2) ∧
    d' !! "projects" = Some (VArr [VStr "project_1"; VStr (p_id p)]) ∧
    p_userId p = VStr "u1".
Proof.
  intros E d w body.
  destruct (create_project_fresh_id E body w "u1" "u1" d 1 [VStr "project_1"])
    as (w' & d' & p & Hrun & Hu & Hn & Hl & _ & _ & _ & Hown).
  - split; [reflexivity | split; reflexivity].
  - reflexivity.
  - reflexivity.
  - intros i _. reflexivity.
  - reflexivity.
  - unfold counter_range. lia.
  - reflexivity.
  - intros Hin. apply elem_of_cons in Hin as [Heq | Hin]; [discriminate|].
    by apply elem_of_nil in Hin.
  - exists w', d', p. split; [exact Hrun|]. split; [exact Hu|].
    split; [exact Hn|]. split; [exact Hl | exact Hown].
Defined.

Lemma create_project_keeps_consistent_witness :
  let E := calm_env true (λ n, 1700000000000 + Z.of_nat n) in
  let d : Doc := {[ "totalProjects" := VNum 0; "projects" := VArr [] ]} in
  let w := mkWorld {[ "u1" := d ]} ∅ [] 0 [] in
  let body : gmap string Value :=
    {[ "userId" := VStr "u1"; "name" := VStr "Site"; "type" := VStr "web" ]} in
  ∃ d', users (create_project E body w).2 !! "u1" = Some d' ∧ consistent d' = true.
Proof.
  intros E d w body.
  apply (create_project_keeps_consistent E body w "u1" d).
  - reflexivity.
  - reflexivity.
  - intros l Hl. vm_compute in Hl. inversion Hl; subst l. apply not_elem_of_nil.
Defined.

(** ** Create project: a project id that is already used *)

(** X21. Create-project writes the project with [set], so when the id made
    from the clock is the name of a project document that exists, a
    project of another user included, that document is replaced: for a
    request with a [name] and a [type] whose calls succeed, no document is
    added, the old project is gone from the list of the projects of its
    owner, and the request is answered 200. *)
Theorem create_project_overwrites (E : Env) (body : gmap string Value) (w : World)
    (s key : string) (d : Doc) (owner : string) (q : Project) :
  names_user w (prop body "userId") s key d →
  is_defined (prop body "name") = true →
  is_defined (prop body "type") = true →
  quiet E w 3 →
  let p := new_project E body w in
  projects w !! p_id p = Some q →
  owned_by owner q →
  owner ≠ s →
  ∃ w1,
    create_project E body w = (Ok (created_response p), w1) ∧
    dom (projects w1) = dom (projects w) ∧
    projects w1 !! p_id p = Some p ∧
    q ∈ projects_of owner (projects w) ∧
    (∀ k x, (k, x) ∈ projects_snapshot owner (projects w1) → k ≠ p_id p).
Proof.
  intros Hu Hname Htype Hq. cbv zeta. intros Hold Hown Hne.
  exists (after_create E body w key d).
  split; [exact (create_project_run E body w s key d Hu Hname Htype Hq)|].
  destruct Hu as (Hv & Hs & Hd).
  unfold after_create. simpl. split_and!.
  - rewrite dom_insert_L.
    apply subseteq_union_1_L, singleton_subseteq_l.
    exact (elem_of_dom_2 _ _ _ Hold).
  - apply lookup_insert_eq.
  - unfold projects_of. apply list_elem_of_fmap.
    exists (p_id (new_project E body w), q). split; [reflexivity|].
    by apply elem_of_projects_snapshot.
  - intros k x Hin Hk. subst k.
    apply elem_of_projects_snapshot in Hin as [Hlook Hx].
    rewrite lookup_insert_eq in Hlook. inversion Hlook; subst x.
    unfold owned_by in Hx. simpl in Hx. rewrite Hv in Hx.
    apply Hne. by inversion Hx.
Qed.

Lemma create_project_overwrites_witness :
  let E := calm_env true (λ _, 1700000000000) in
  let d : Doc := {[ "totalProjects" := VNum 0; "projects" := VArr [] ]} in
  let q := mkProject "project_1700000000000" (VStr "u2") (VStr "Shop") (VStr "web")
             (VStr "") "2023-11-14T22:13:20.000Z" "2023-11-14T22:13:20.000Z"
             "active" [] [] in
  let w := mkWorld {[ "u1" := d ]} {[ "project_1700000000000" := q ]} [] 0 [] in
  let body : gmap string Value :=
    {[ "userId" := VStr "u1"; "name" := VStr "Site"; "type" := VStr "web" ]} in
  ∃ w1,
    create_project E body w = (Ok (created_response (new_project E body w)), w1) ∧
    dom (projects w1) = dom (projects w) ∧
    projects w1 !! "project_1700000000000" = Some (new_project E body w) ∧
    q ∈ projects_of "u2" (projects w) ∧
    (∀ k x, (k, x) ∈ projects_snapshot "u2" (projects w1) → k ≠ "project_1700000000000").
Proof.
  intros E d q w body.
  apply (create_project_overwrites E body w "u1" "u1" d "u2" q).
  - split; [reflexivity | split; reflexivity].
  - reflexivity.
  - reflexivity.
  - intros i _. reflexivity.
  - reflexivity.
  - reflexivity.
  - discriminate.
Defined.
